(** * hardkeys.c: the [hardkeys] extension module of MaemoSiddur

    A shallow embedding of [src/hardkeys.c], the Python 2 extension module
    whose one method, [grab_zoom_keys(widget, grab)], sets the X11 window
    property [_HILDON_ZOOM_KEY_ATOM] of a widget's window.

    The C code is glue between three libraries.  Their functions are modelled
    here from their documented behaviour, just far enough to run the two C
    functions of the module:

    - CPython: [PyArg_ParseTuple] with the format units [O!] and [i],
      [PyType_IsSubtype], [PyImport_ImportModule], [PyObject_GetAttrString];
    - GTK/GDK: the [GTK_WIDGET] cast, the [window] field of a widget,
      [gdk_x11_drawable_get_xdisplay], [GDK_WINDOW_XID];
    - Xlib: [XInternAtom], [XChangeProperty].

    Xlib queues a request and the server answers errors asynchronously; the
    model applies a request to the server at the point of the call and
    records the answer in a wire log that the C code never reads. *)

From Stdlib Require Import ZArith List String Bool Lia.
From stdpp Require Import base option gmap strings list fin_maps.

Local Open Scope string_scope.
Local Open Scope list_scope.
Local Open Scope Z_scope.

(** ** The X server *)

Module X11.

Definition Display := N.      (* a Display*, by connection number *)
Definition Window := N.       (* an XID *)
Definition Atom := N.         (* None is 0 *)

(** <X11/Xatom.h> *)
Definition XA_INTEGER : Atom := 19%N.
Definition XA_LAST_PREDEFINED : Atom := 68%N.

(** The names of the atoms 1..68 every server starts with. *)
Definition predefined_atoms : list string :=
  [ "PRIMARY"; "SECONDARY"; "ARC"; "ATOM"; "BITMAP"; "CARDINAL"; "COLORMAP";
    "CURSOR"; "CUT_BUFFER0"; "CUT_BUFFER1"; "CUT_BUFFER2"; "CUT_BUFFER3";
    "CUT_BUFFER4"; "CUT_BUFFER5"; "CUT_BUFFER6"; "CUT_BUFFER7"; "DRAWABLE";
    "FONT"; "INTEGER"; "PIXMAP"; "POINT"; "RECTANGLE"; "RESOURCE_MANAGER";
    "RGB_COLOR_MAP"; "RGB_BEST_MAP"; "RGB_BLUE_MAP"; "RGB_DEFAULT_MAP";
    "RGB_GRAY_MAP"; "RGB_GREEN_MAP"; "RGB_RED_MAP"; "STRING"; "VISUALID";
    "WINDOW"; "WM_COMMAND"; "WM_HINTS"; "WM_CLIENT_MACHINE"; "WM_ICON_NAME";
    "WM_ICON_SIZE"; "WM_NAME"; "WM_NORMAL_HINTS"; "WM_SIZE_HINTS";
    "WM_ZOOM_HINTS"; "MIN_SPACE"; "NORM_SPACE"; "MAX_SPACE"; "END_SPACE";
    "SUPERSCRIPT_X"; "SUPERSCRIPT_Y"; "SUBSCRIPT_X"; "SUBSCRIPT_Y";
    "UNDERLINE_POSITION"; "UNDERLINE_THICKNESS"; "STRIKEOUT_ASCENT";
    "STRIKEOUT_DESCENT"; "ITALIC_ANGLE"; "X_HEIGHT"; "QUAD_WIDTH"; "WEIGHT";
    "POINT_SIZE"; "RESOLUTION"; "COPYRIGHT"; "NOTICE"; "FONT_NAME";
    "FAMILY_NAME"; "FULL_NAME"; "CAP_HEIGHT"; "WM_CLASS";
    "WM_TRANSIENT_FOR" ].

(** PropModeReplace, PropModePrepend, PropModeAppend of <X11/X.h> *)
Inductive PropMode := PropModeReplace | PropModePrepend | PropModeAppend.

(** A property as the server stores it: its type atom, its format (8, 16
    or 32) and its items. *)
Record Property := mkProperty {
  prop_type : Atom;
  prop_format : Z;
  prop_data : list Z
}.

(** One server: the table of interned atom names (the atom of the name at
    index [i] is [i + 1]), the windows that exist, and the property store
    keyed by window and property atom. *)
Record XServer := mkXServer {
  atom_names : list string;
  windows : list Window;
  properties : gmap (Window * Atom) Property
}.

Inductive XError := BadValue | BadWindow | BadAtom | BadMatch.

(** What goes over the wire, and what the server answers. *)
Inductive XRequest :=
| InternAtom (dpy : Display) (name : string) (only_if_exists : bool)
| ChangeProperty (dpy : Display) (w : Window) (property type : Atom)
    (format : Z) (mode : PropMode) (data : list Z) (nelements : nat).

Inductive XReply := ReplyAtom (a : Atom) | ReplyOk | ReplyError (e : XError).

(** The position of a name in the atom table. *)
Fixpoint name_index (name : string) (names : list string) : option nat :=
  match names with
  | [] => None
  | n :: rest =>
      if String.eqb n name then Some O
      else match name_index name rest with
           | Some i => Some (S i)
           | None => None
           end
  end.

Definition atom_of_index (i : nat) : Atom := N.of_nat (S i).

Definition lookup_atom (name : string) (s : XServer) : option Atom :=
  match name_index name (atom_names s) with
  | Some i => Some (atom_of_index i)
  | None => None
  end.

Definition valid_atom (a : Atom) (s : XServer) : bool :=
  (0 <? a)%N && (a <=? N.of_nat (length (atom_names s)))%N.

Definition valid_format (format : Z) : bool :=
  (format =? 8) || (format =? 16) || (format =? 32).

(** The server side of InternAtom: the atom of [name]; when there is none
    it is created unless [only_if_exists], and None (0) is answered then. *)
Definition intern_atom (name : string) (only_if_exists : bool) (s : XServer)
  : Atom * XServer :=
  match lookup_atom name s with
  | Some a => (a, s)
  | None =>
      if only_if_exists then (0%N, s)
      else (atom_of_index (length (atom_names s)),
            mkXServer (atom_names s ++ [name]) (windows s) (properties s))
  end.

(** The items the server keeps: [nelements] of them, each cut to [format]
    bits. *)
Definition wire_items (format : Z) (data : list Z) (nelements : nat) : list Z :=
  map (fun v => Z.land v (Z.ones format)) (firstn nelements data).

Definition set_property (s : XServer) (w : Window) (a : Atom) (p : Property)
  : XServer :=
  mkXServer (atom_names s) (windows s) (<[(w, a) := p]> (properties s)).

(** The server side of ChangeProperty. *)
Definition change_property (w : Window) (property type : Atom) (format : Z)
    (mode : PropMode) (data : list Z) (nelements : nat) (s : XServer)
  : XReply * XServer :=
  if negb (valid_format format) then (ReplyError BadValue, s)
  else if negb (existsb (N.eqb w) (windows s)) then (ReplyError BadWindow, s)
  else if negb (valid_atom property s && valid_atom type s)
       then (ReplyError BadAtom, s)
  else
    let items := wire_items format data nelements in
    match mode with
    | PropModeReplace =>
        (ReplyOk, set_property s w property (mkProperty type format items))
    | PropModePrepend | PropModeAppend =>
        match properties s !! (w, property) with
        | None =>
            (ReplyOk, set_property s w property (mkProperty type format items))
        | Some old =>
            if (prop_type old =? type)%N && (prop_format old =? format)
            then
              let joined := match mode with
                            | PropModePrepend => items ++ prop_data old
                            | _ => prop_data old ++ items
                            end in
              (ReplyOk,
               set_property s w property (mkProperty type format joined))
            else (ReplyError BadMatch, s)
        end
    end.

(** The property [name] of window [w], as a client reading the server
    would find it. *)
Definition get_property (s : XServer) (w : Window) (name : string)
  : option Property :=
  match lookup_atom name s with
  | Some a => properties s !! (w, a)
  | None => None
  end.

(** A server holds the predefined atoms at their numbers. *)
Definition well_formed (s : XServer) : Prop :=
  firstn 68 (atom_names s) = predefined_atoms.

End X11.

(** ** Python and GTK objects *)

Module Py.
Import X11.

(** A GdkWindow of the X11 backend: its connection and its XID. *)
Record GdkWindow := mkGdkWindow {
  gdk_xdisplay : Display;
  gdk_xid : Window
}.

(** A GtkWidget: [window] is NULL until the widget is realized. *)
Record GtkWidget := mkGtkWidget { window : option GdkWindow }.

(** The GObject a PyGObject wraps: a widget, or an object of another
    GType. *)
Inductive GObject :=
| GtkWidgetObject (w : GtkWidget)
| OtherGObject (gtype : string).

(** Python values.  A type object is named by its qualified name, which
    stands for its address; an instance of a GObject wrapper class carries
    the method resolution order of its class and the wrapped [obj]. *)
Inductive PyObject :=
| PyInt (n : Z)                      (* an int or a long *)
| PyBool (b : bool)
| PyString (s : string)
| Py_None
| PyType (name : string)
| PyCFunction (module name : string)
| PyGObject (mro : list string) (obj : GObject).

(** [tp_mro] of [ob_type]: the class of the object first. *)
Definition tp_mro (o : PyObject) : list string :=
  match o with
  | PyInt _ => ["int"; "object"]
  | PyBool _ => ["bool"; "int"; "object"]
  | PyString _ => ["str"; "basestring"; "object"]
  | Py_None => ["NoneType"; "object"]
  | PyType _ => ["type"; "object"]
  | PyCFunction _ _ => ["builtin_function_or_method"; "object"]
  | PyGObject mro _ => mro
  end.

(** [PyType_IsSubtype(Py_TYPE(o), b)]: walks the MRO comparing addresses. *)
Definition PyType_IsSubtype (o : PyObject) (b : string) : bool :=
  existsb (String.eqb b) (tp_mro o).

Inductive PyExc :=
| TypeError_arg_count (expected given : nat)
| TypeError_arg_type (index : nat)
| OverflowError_arg (index : nat)
| ImportError (module : string)
| AttributeError (attr : string).

Definition is_TypeError (e : PyExc) : bool :=
  match e with
  | TypeError_arg_count _ _ | TypeError_arg_type _ => true
  | _ => false
  end.

(** <limits.h>, for the 32-bit [int] of the C code. *)
Definition INT_MAX : Z := 2147483647.
Definition INT_MIN : Z := -2147483648.

End Py.

(** ** The process state and the monad of the C code *)

Import X11 Py.

(** Everything the two C functions read or write: the module's static
    [PyGObject_Type], the interpreter's modules and error indicator, the
    open X connections with the server behind each, and the wire log. *)
Record World := mkWorld {
  PyGObject_Type : option PyObject;
  py_modules : gmap string (gmap string PyObject);
  py_error : option PyExc;
  displays : gmap Display XServer;
  wire : list (XRequest * XReply)
}.

(** A C call either returns, in a new state, or has no defined behaviour
    (a NULL or foreign pointer is dereferenced). *)
Inductive Result (A : Type) :=
| Done (a : A) (w : World)
| Undefined.
Arguments Done {A} a w.
Arguments Undefined {A}.

Definition M (A : Type) : Type := World -> Result A.

Definition ret {A} (a : A) : M A := fun w => Done a w.

Definition bind {A B} (c : M A) (k : A -> M B) : M B :=
  fun w => match c w with
           | Done a w' => k a w'
           | Undefined => Undefined
           end.

Definition undefined {A} : M A := fun _ => Undefined.

Definition gets {A} (f : World -> A) : M A := fun w => Done (f w) w.

Definition modify (f : World -> World) : M unit := fun w => Done tt (f w).

Notation "'let!' x ':=' c 'in' k" := (bind c (fun x => k))
  (at level 10, x name, c at level 100, k at level 200, only parsing).
Notation "'do!' c 'in' k" := (bind c (fun _ => k))
  (at level 10, c at level 100, k at level 200, only parsing).

Definition set_PyGObject_Type (t : option PyObject) (w : World) : World :=
  mkWorld t (py_modules w) (py_error w) (displays w) (wire w).

Definition set_py_modules (m : gmap string (gmap string PyObject)) (w : World)
  : World :=
  mkWorld (PyGObject_Type w) m (py_error w) (displays w) (wire w).

Definition set_py_error (e : option PyExc) (w : World) : World :=
  mkWorld (PyGObject_Type w) (py_modules w) e (displays w) (wire w).

Definition send (d : Display) (s : XServer) (rq : XRequest) (rp : XReply)
    (w : World) : World :=
  mkWorld (PyGObject_Type w) (py_modules w) (py_error w)
          (<[d := s]> (displays w)) (wire w ++ [(rq, rp)]).

(** ** CPython *)

Definition PyErr_Set (e : PyExc) : M unit := modify (set_py_error (Some e)).

(** The method table: name and docstring of each entry. *)
Definition HardKeyMethods : list (string * string) :=
  [ ("grab_zoom_keys", "Grab zoom keys.") ].

Definition Py_InitModule (name : string) (methods : list (string * string))
  : M unit :=
  modify (fun w =>
    set_py_modules
      (<[name := list_to_map
                   (map (fun m => (fst m, PyCFunction name (fst m))) methods)]>
         (py_modules w)) w).

(** NULL with ImportError set when the module cannot be loaded. *)
Definition PyImport_ImportModule (name : string)
  : M (option (gmap string PyObject)) :=
  let! mods := gets py_modules in
  match mods !! name with
  | Some m => ret (Some m)
  | None => do! PyErr_Set (ImportError name) in ret None
  end.

(** NULL with AttributeError set when the attribute is missing. *)
Definition PyObject_GetAttrString (o : gmap string PyObject) (attr : string)
  : M (option PyObject) :=
  match o !! attr with
  | Some v => ret (Some v)
  | None => do! PyErr_Set (AttributeError attr) in ret None
  end.

(** The format units the module uses: ["O!"] with its type argument, and
    ["i"]. *)
Inductive FormatUnit :=
| Fmt_O_bang (type : option PyObject)
| Fmt_i.

Inductive ArgValue := ArgObject (o : PyObject) | ArgInt (n : Z).

(** [PyInt_AsLong] followed by the range check of the ["i"] unit: a bool
    is an int; an int that does not fit is an OverflowError; any other
    object of the model has no [__int__]. *)
Definition convert_i (index : nat) (arg : PyObject) : M (option ArgValue) :=
  match arg with
  | PyInt n =>
      if (INT_MIN <=? n) && (n <=? INT_MAX) then ret (Some (ArgInt n))
      else do! PyErr_Set (OverflowError_arg index) in ret None
  | PyBool b => ret (Some (ArgInt (if b then 1 else 0)))
  | _ => do! PyErr_Set (TypeError_arg_type index) in ret None
  end.

(** The ["O!"] unit: the object itself when its type is a subtype of
    [type]; otherwise a TypeError whose message reads [type->tp_name].
    A NULL [type], or one that is no type object, is in no MRO, and the
    message is then read through a bad pointer. *)
Definition convert_O_bang (type : option PyObject) (index : nat)
    (arg : PyObject) : M (option ArgValue) :=
  match type with
  | Some (PyType t) =>
      if PyType_IsSubtype arg t then ret (Some (ArgObject arg))
      else do! PyErr_Set (TypeError_arg_type index) in ret None
  | _ => undefined
  end.

Definition convert_unit (u : FormatUnit) : nat -> PyObject -> M (option ArgValue) :=
  match u with
  | Fmt_O_bang type => convert_O_bang type
  | Fmt_i => convert_i
  end.

Fixpoint convert_args (units : list FormatUnit) (args : list PyObject)
    (index : nat) : M (option (list ArgValue)) :=
  match units, args with
  | u :: units', a :: args' =>
      let! v := convert_unit u index a in
      match v with
      | None => ret None
      | Some x =>
          let! vs := convert_args units' args' (S index) in
          ret (option_map (cons x) vs)
      end
  | _, _ => ret (Some [])
  end.

(** [PyArg_ParseTuple]: the number of arguments is checked against the
    number of units first, then the arguments are converted left to right.
    [None] is the 0 it returns with the error indicator set. *)
Definition PyArg_ParseTuple (args : list PyObject) (units : list FormatUnit)
  : M (option (list ArgValue)) :=
  if Nat.eqb (length args) (length units) then convert_args units args 1
  else do! PyErr_Set (TypeError_arg_count (length units) (length args)) in
       ret None.

(** [init_pygobject()] and [init_pygtk()] of <pygobject.h> and
    <pygtk/pygtk.h>: each imports its module and makes the calling function
    return, ImportError set, when that fails.  [false] is that return. *)
Definition init_pygobject : M bool :=
  let! m := PyImport_ImportModule "gobject" in
  ret (bool_decide (is_Some m)).

Definition init_pygtk : M bool :=
  let! m := PyImport_ImportModule "gtk" in
  ret (bool_decide (is_Some m)).

(** ** GTK and GDK *)

(** [py_widget->obj]: the object has the layout of a PyGObject only when it
    is an instance of a GObject wrapper class. *)
Definition pygobject_obj (py_widget : PyObject) : M GObject :=
  match py_widget with
  | PyGObject _ obj => ret obj
  | _ => undefined
  end.

(** [GTK_WIDGET(obj)]: on another GType the cast warns and hands the
    pointer back; the widget fields read through it are foreign memory. *)
Definition GTK_WIDGET (obj : GObject) : M GtkWidget :=
  match obj with
  | GtkWidgetObject w => ret w
  | OtherGObject _ => undefined
  end.

(** NULL for a NULL drawable. *)
Definition gdk_x11_drawable_get_xdisplay (d : option GdkWindow)
  : option Display :=
  match d with
  | Some gw => Some (gdk_xdisplay gw)
  | None => None
  end.

(** 0 for a NULL drawable. *)
Definition GDK_WINDOW_XID (d : option GdkWindow) : Window :=
  match d with
  | Some gw => gdk_xid gw
  | None => 0%N
  end.

(** ** Xlib *)

(** [dpy] is dereferenced: it has to be an open connection. *)
Definition XInternAtom (dpy : option Display) (name : string)
    (only_if_exists : bool) : M Atom :=
  match dpy with
  | None => undefined
  | Some d =>
      let! conns := gets displays in
      match conns !! d with
      | None => undefined
      | Some s =>
          let (a, s') := intern_atom name only_if_exists s in
          do! modify (send d s' (InternAtom d name only_if_exists)
                               (ReplyAtom a)) in
          ret a
      end
  end.

(** [data] stands for the array of longs behind the [unsigned char *];
    [nelements] of them are read.  The request is sent and 1 is returned,
    whatever the server will answer. *)
Definition XChangeProperty (dpy : option Display) (w : Window)
    (property type : Atom) (format : Z) (mode : PropMode) (data : list Z)
    (nelements : nat) : M Z :=
  match dpy with
  | None => undefined
  | Some d =>
      let! conns := gets displays in
      match conns !! d with
      | None => undefined
      | Some s =>
          if (length data <? nelements)%nat then undefined
          else
            let (rp, s') :=
              change_property w property type format mode data nelements s in
            do! modify (send d s'
                  (ChangeProperty d w property type format mode data nelements)
                  rp) in
            ret 1
      end
  end.

(** ** hardkeys.c *)

Definition zoom_key_atom_name : string := "_HILDON_ZOOM_KEY_ATOM".

(** [inithardkeys], lines 28-42. *)
Definition inithardkeys : M unit :=
  do! Py_InitModule "hardkeys" HardKeyMethods in
  let! ok := init_pygobject in
  if negb ok then ret tt else
  let! ok := init_pygtk in
  if negb ok then ret tt else
  let! module := PyImport_ImportModule "gobject" in
  match module with
  | Some m =>
      let! t := PyObject_GetAttrString m "GObject" in
      modify (set_PyGObject_Type t)
  | None => ret tt
  end.

(** [hardkeys_grab_zoom_keys], lines 44-69.  [None] is the NULL it returns
    after a failed parse.  [Py_None] is returned as it is, without
    [Py_INCREF]; reference counts are not part of the model. *)
Definition hardkeys_grab_zoom_keys (self : PyObject) (args : list PyObject)
  : M (option PyObject) :=
  let! type := gets PyGObject_Type in
  let! parsed := PyArg_ParseTuple args [Fmt_O_bang type; Fmt_i] in
  match parsed with
  | None => ret None
  | Some [ArgObject py_widget; ArgInt grab] =>
      let! obj := pygobject_obj py_widget in
      let! widget := GTK_WIDGET obj in
      let dpy := gdk_x11_drawable_get_xdisplay (window widget) in
      let win := GDK_WINDOW_XID (window widget) in
      let! atom := XInternAtom dpy zoom_key_atom_name false in
      let val := if grab =? 0 then 0 else 1 in
      let! property := XInternAtom dpy zoom_key_atom_name false in
      do! XChangeProperty dpy win property XA_INTEGER 32 PropModeReplace
            [val] 1 in
      ret (Some Py_None)
  | Some _ => undefined
  end.

(** The process before the module is loaded: the static is NULL. *)
Definition process_start (mods : gmap string (gmap string PyObject))
    (conns : gmap Display XServer) : World :=
  mkWorld None mods None conns [].

(** The named property of the widget's window, read from the server. *)
Definition zoom_key_property (w : World) (gw : GdkWindow) : option Property :=
  match displays w !! gdk_xdisplay gw with
  | Some s => get_property s (gdk_xid gw) zoom_key_atom_name
  | None => None
  end.

(** ** Sample data *)

Module Sample.

Definition GObject_mro : list string := ["gobject.GObject"; "object"].
Definition Window_mro : list string :=
  ["gtk.Window"; "gtk.Bin"; "gtk.Container"; "gtk.Widget"; "gtk.Object";
   "gobject.GObject"; "object"].
Definition ListStore_mro : list string :=
  ["gtk.ListStore"; "gobject.GObject"; "object"].

Definition gobject_module : gmap string PyObject :=
  {[ "GObject" := PyType "gobject.GObject" ]}.
Definition gtk_module : gmap string PyObject :=
  {[ "Widget" := PyType "gtk.Widget" ]}.
Definition modules : gmap string (gmap string PyObject) :=
  {[ "gobject" := gobject_module; "gtk" := gtk_module ]}.

(** A freshly started server with one window, 0x2a00003. *)
Definition xid : Window := 44040195%N.
Definition server : XServer := mkXServer predefined_atoms [xid] ∅.

Definition gdk_window : GdkWindow := mkGdkWindow 0%N xid.
Definition realized : PyObject :=
  PyGObject Window_mro (GtkWidgetObject (mkGtkWidget (Some gdk_window))).
Definition unrealized : PyObject :=
  PyGObject Window_mro (GtkWidgetObject (mkGtkWidget None)).
Definition list_store : PyObject :=
  PyGObject ListStore_mro (OtherGObject "GtkListStore").

(** A second connection, to a server on which the window is gone. *)
Definition bare_server : XServer := mkXServer predefined_atoms [] ∅.
Definition stale_window : GdkWindow := mkGdkWindow 1%N xid.
Definition stale : PyObject :=
  PyGObject Window_mro (GtkWidgetObject (mkGtkWidget (Some stale_window))).

(** The process after [import hardkeys]. *)
Definition start : World :=
  process_start modules {[ 0%N := server; 1%N := bare_server ]}.
Definition loaded : World :=
  match inithardkeys start with
  | Done _ w => w
  | Undefined => start
  end.

(** The process after one call with [args]. *)
Definition after (args : list PyObject) : World :=
  match hardkeys_grab_zoom_keys Py_None args loaded with
  | Done _ w => w
  | Undefined => loaded
  end.

End Sample.

(** ** Auxiliary definitions for the statements *)

(** The C int the ["i"] unit reads from an object, when it accepts it. *)
Definition int_value (g : PyObject) : option Z :=
  match g with
  | PyInt n => if (INT_MIN <=? n) && (n <=? INT_MAX) then Some n else None
  | PyBool b => Some (if b then 1 else 0)
  | _ => None
  end.

(** The exception the ["i"] unit sets for an object it refuses. *)
Definition int_error (index : nat) (g : PyObject) : PyExc :=
  match g with
  | PyInt _ => OverflowError_arg index
  | _ => TypeError_arg_type index
  end.

(** A realized widget wrapped by an instance of a class with [mro]. *)
Definition realized_widget (mro : list string) (gw : GdkWindow) : PyObject :=
  PyGObject mro (GtkWidgetObject (mkGtkWidget (Some gw))).

(** Whether the object wraps a GtkWidget. *)
Definition wraps_widget (o : PyObject) : bool :=
  match o with
  | PyGObject _ (GtkWidgetObject _) => true
  | _ => false
  end.

(** The state in which a call that reached the server ends: the connection
    of the window now shows server [s2], and three requests went out, the
    last answered [rp]. *)
Definition grab_post (w : World) (gw : GdkWindow) (a : Atom) (v : Z)
    (rp : XReply) (s2 : XServer) : World :=
  let d := gdk_xdisplay gw in
  mkWorld (PyGObject_Type w) (py_modules w) (py_error w)
    (<[d := s2]> (displays w))
    (wire w ++
       [ (InternAtom d zoom_key_atom_name false, ReplyAtom a);
         (InternAtom d zoom_key_atom_name false, ReplyAtom a);
         (ChangeProperty d (gdk_xid gw) a XA_INTEGER 32 PropModeReplace [v] 1,
          rp) ]).

(** Calls of [grab_zoom_keys] one after the other, each with its argument
    tuple; [None] when one of them has no defined behaviour. *)
Fixpoint run_calls (calls : list (list PyObject)) (w : World) : option World :=
  match calls with
  | [] => Some w
  | args :: rest =>
      match hardkeys_grab_zoom_keys Py_None args w with
      | Done _ w' => run_calls rest w'
      | Undefined => None
      end
  end.

(** The item arrays of the ChangeProperty requests in a stretch of the
    wire log. *)
Fixpoint written_data (log : list (XRequest * XReply)) : list (list Z) :=
  match log with
  | [] => []
  | (ChangeProperty _ _ _ _ _ _ data _, _) :: rest => data :: written_data rest
  | _ :: rest => written_data rest
  end.

(** The item the code writes for the C int [grab]: [grab?1:0]. *)
Definition flag (grab : Z) : Z := if grab =? 0 then 0 else 1.

(** The server after the three requests of one call for window [win] with
    the item [v]: the name interned, then the write answered. *)
Definition served (win : Window) (v : Z) (s : XServer) : XServer :=
  let (a, s1) := intern_atom zoom_key_atom_name false s in
  snd (change_property win a XA_INTEGER 32 PropModeReplace [v] 1 s1).

(** [s'] is [s] after some calls: the same windows; the atom table the
    same or longer by the one name; no property gone, and every property
    under another atom than that of the name as it was. *)
Definition grows (s s' : XServer) : Prop :=
  windows s' = windows s /\
  (atom_names s' = atom_names s \/
   (lookup_atom zoom_key_atom_name s = None /\
    atom_names s' = atom_names s ++ [zoom_key_atom_name])) /\
  (forall win b, lookup_atom zoom_key_atom_name s' <> Some b ->
                 properties s' !! (win, b) = properties s !! (win, b)) /\
  (forall k, is_Some (properties s !! k) -> is_Some (properties s' !! k)).

(** The same between two states of the process: the stored type and the
    modules are kept, the log is extended, no connection is opened or
    closed, and each server grows. *)
Definition world_grows (w w' : World) : Prop :=
  PyGObject_Type w' = PyGObject_Type w /\
  py_modules w' = py_modules w /\
  (exists new, wire w' = wire w ++ new) /\
  forall d,
    match displays w !! d, displays w' !! d with
    | Some s, Some s' => grows s s'
    | None, None => True
    | _, _ => False
    end.

(** An installation without GTK: [gobject] alone can be imported. *)
Module Broken.

Definition modules : gmap string (gmap string PyObject) :=
  {[ "gobject" := Sample.gobject_module ]}.

Definition start : World := process_start modules {[ 0%N := Sample.server ]}.

Definition loaded : World :=
  match inithardkeys start with
  | Done _ w => w
  | Undefined => start
  end.

End Broken.

(** A session of the sample process: a good call, a call with one
    argument, a call for the window that is gone, a refused flag. *)
Module Session.

Definition calls : list (list PyObject) :=
  [ [Sample.realized; PyBool true];
    [Sample.realized];
    [Sample.stale; PyInt 0];
    [Sample.realized; PyString "no"] ].

Definition finish : World :=
  match run_calls calls Sample.loaded with
  | Some w => w
  | None => Sample.loaded
  end.

End Session.

(** ** The atom table *)

Section NameIndex.
Variable name : string.

Lemma name_index_lt (l : list string) (i : nat) :
  name_index name l = Some i -> (i < length l)%nat.
Proof.
  revert i. induction l as [|n l IH]; simpl; intros i H; [discriminate|].
  destruct (String.eqb n name).
  - injection H as <-. lia.
  - destruct (name_index name l) as [j|]; [|discriminate].
    injection H as <-. specialize (IH j eq_refl). lia.
Qed.

Lemma name_index_app_l (l l' : list string) (i : nat) :
  name_index name l = Some i -> name_index name (l ++ l') = Some i.
Proof.
  revert i. induction l as [|n l IH]; simpl; intros i H; [discriminate|].
  destruct (String.eqb n name); [exact H|].
  destruct (name_index name l) as [j|]; [|discriminate].
  now rewrite (IH j eq_refl).
Qed.

Lemma name_index_fresh (l : list string) :
  name_index name l = None -> name_index name (l ++ [name]) = Some (length l).
Proof.
  induction l as [|n l IH]; simpl; intros H.
  - now rewrite String.eqb_refl.
  - destruct (String.eqb n name); [discriminate|].
    destruct (name_index name l) as [j|]; [discriminate|].
    now rewrite (IH eq_refl).
Qed.

End NameIndex.

Section AtomTable.
Variable name : string.

Lemma intern_atom_lookup (s s' : XServer) (a : Atom) :
  intern_atom name false s = (a, s') -> lookup_atom name s' = Some a.
Proof.
  unfold intern_atom. destruct (lookup_atom name s) as [b|] eqn:E.
  - intros [= <- <-]. exact E.
  - intros [= <- <-]. unfold lookup_atom in *. simpl.
    destruct (name_index name (atom_names s)) eqn:E'; [discriminate|].
    now rewrite (name_index_fresh _ _ E').
Qed.

Lemma intern_atom_again (s s' : XServer) (a : Atom) :
  intern_atom name false s = (a, s') -> intern_atom name false s' = (a, s').
Proof.
  intros H. apply intern_atom_lookup in H.
  unfold intern_atom. now rewrite H.
Qed.

Lemma intern_atom_valid (s s' : XServer) (a : Atom) :
  intern_atom name false s = (a, s') -> valid_atom a s' = true.
Proof.
  intros H. apply intern_atom_lookup in H. unfold lookup_atom in H.
  destruct (name_index name (atom_names s')) as [i|] eqn:E; [|discriminate].
  injection H as <-. apply name_index_lt in E.
  unfold valid_atom, atom_of_index.
  apply andb_true_intro; split; [apply N.ltb_lt | apply N.leb_le]; lia.
Qed.

(** Interning touches the atom table only, and only by adding [name] at
    its end when it is new. *)
Lemma intern_atom_frame (s s' : XServer) (a : Atom) :
  intern_atom name false s = (a, s') ->
  windows s' = windows s /\ properties s' = properties s /\
  ((lookup_atom name s = Some a /\ s' = s) \/
   (lookup_atom name s = None /\ atom_names s' = atom_names s ++ [name])).
Proof.
  unfold intern_atom. destruct (lookup_atom name s) as [b|] eqn:E.
  - intros [= <- <-]. auto.
  - intros [= <- <-]. simpl. auto.
Qed.

Lemma intern_atom_keeps (s s' : XServer) (a : Atom) (other : string) (b : Atom) :
  intern_atom name false s = (a, s') ->
  lookup_atom other s = Some b -> lookup_atom other s' = Some b.
Proof.
  intros H Hb. destruct (intern_atom_frame _ _ _ H) as (_ & _ & [[_ ->]|[_ E]]);
    [exact Hb|].
  unfold lookup_atom in *. rewrite E.
  destruct (name_index other (atom_names s)) as [i|] eqn:Ei; [|discriminate].
  now rewrite (name_index_app_l _ _ [name] _ Ei).
Qed.

End AtomTable.

(** ** The property store *)

Lemma well_formed_length (s : XServer) :
  well_formed s -> (68 <= length (atom_names s))%nat.
Proof.
  unfold well_formed. intros H.
  assert (L : length (firstn 68 (atom_names s)) = 68%nat) by now rewrite H.
  rewrite length_firstn in L. lia.
Qed.

Lemma well_formed_XA_INTEGER (s : XServer) :
  well_formed s -> valid_atom XA_INTEGER s = true.
Proof.
  intros H%well_formed_length. unfold valid_atom, XA_INTEGER.
  apply andb_true_intro; split; [reflexivity | apply N.leb_le; lia].
Qed.

Lemma well_formed_intern (name : string) (s s' : XServer) (a : Atom) :
  intern_atom name false s = (a, s') -> well_formed s -> well_formed s'.
Proof.
  intros H W. destruct (intern_atom_frame _ _ _ _ H) as (_ & _ & [[_ ->]|[_ E]]);
    [exact W|].
  pose proof (well_formed_length _ W) as L.
  unfold well_formed in *. rewrite E, firstn_app.
  replace (68 - length (atom_names s))%nat with O by lia.
  simpl. now rewrite app_nil_r.
Qed.

Lemma existsb_window (w : Window) (l : list Window) :
  existsb (N.eqb w) l = true <-> In w l.
Proof.
  rewrite existsb_exists. split.
  - intros (x & Hx & E%N.eqb_eq). now subst.
  - intros H. exists w. split; [exact H | apply N.eqb_refl].
Qed.

(** The zoom key value goes over the wire as it is. *)
Lemma wire_items_flag (n : Z) :
  wire_items 32 [if n =? 0 then 0 else 1] 1 = [if n =? 0 then 0 else 1].
Proof. now destruct (n =? 0). Qed.

(** A replace-mode write of a 32-bit INTEGER item either is refused and
    leaves the server as it was, or stores exactly that property. *)
Lemma change_property_flag (w : Window) (a : Atom) (n : Z) (s : XServer) :
  let v := if n =? 0 then 0 else 1 in
  change_property w a XA_INTEGER 32 PropModeReplace [v] 1 s =
    if existsb (N.eqb w) (windows s)
    then if valid_atom a s && valid_atom XA_INTEGER s
         then (ReplyOk, set_property s w a (mkProperty XA_INTEGER 32 [v]))
         else (ReplyError BadAtom, s)
    else (ReplyError BadWindow, s).
Proof.
  intros v. unfold change_property. simpl.
  destruct (existsb (N.eqb w) (windows s)); simpl; [|reflexivity].
  destruct (valid_atom a s && valid_atom XA_INTEGER s); simpl; [|reflexivity].
  subst v. now rewrite wire_items_flag.
Qed.

Lemma change_property_flag_cases (w : Window) (a : Atom) (n : Z)
    (s s' : XServer) (rp : XReply) :
  change_property w a XA_INTEGER 32 PropModeReplace
    [if n =? 0 then 0 else 1] 1 s = (rp, s') ->
  (rp = ReplyOk /\
   s' = set_property s w a (mkProperty XA_INTEGER 32 [if n =? 0 then 0 else 1]))
  \/ ((exists e, rp = ReplyError e) /\ s' = s).
Proof.
  rewrite change_property_flag.
  destruct (existsb _ _); [destruct (_ && _)|]; intros [= <- <-]; eauto.
Qed.

(** Writing the same flag again changes nothing. *)
Lemma change_property_flag_again (w : Window) (a : Atom) (n : Z)
    (s s' : XServer) (rp : XReply) :
  change_property w a XA_INTEGER 32 PropModeReplace
    [if n =? 0 then 0 else 1] 1 s = (rp, s') ->
  change_property w a XA_INTEGER 32 PropModeReplace
    [if n =? 0 then 0 else 1] 1 s' = (rp, s').
Proof.
  rewrite !change_property_flag.
  destruct (existsb (N.eqb w) (windows s)) eqn:E1.
  - destruct (valid_atom a s && valid_atom XA_INTEGER s) eqn:E2;
      intros [= <- <-].
    + change (windows (set_property s w a _)) with (windows s).
      change (valid_atom a (set_property s w a ?p)) with (valid_atom a s).
      change (valid_atom XA_INTEGER (set_property s w a ?p))
        with (valid_atom XA_INTEGER s).
      rewrite E1, E2. unfold set_property. simpl.
      now rewrite insert_insert_eq.
    + now rewrite E1, E2.
  - intros [= <- <-]. now rewrite E1.
Qed.

(** ** Argument parsing *)

Lemma convert_i_spec (index : nat) (g : PyObject) (w : World) :
  convert_i index g w =
    match int_value g with
    | Some n => Done (Some (ArgInt n)) w
    | None => Done None (set_py_error (Some (int_error index g)) w)
    end.
Proof.
  destruct g; simpl; try reflexivity.
  now destruct ((INT_MIN <=? n) && (n <=? INT_MAX)).
Qed.

(** The parse of a two-argument call against a stored type object. *)
Lemma parse_two (t : string) (a g : PyObject) (w : World) :
  PyArg_ParseTuple [a; g] [Fmt_O_bang (Some (PyType t)); Fmt_i] w =
    if PyType_IsSubtype a t then
      match int_value g with
      | Some n => Done (Some [ArgObject a; ArgInt n]) w
      | None => Done None (set_py_error (Some (int_error 2 g)) w)
      end
    else Done None (set_py_error (Some (TypeError_arg_type 1)) w).
Proof.
  unfold PyArg_ParseTuple, bind. simpl. unfold bind. simpl.
  destruct (PyType_IsSubtype a t); [|reflexivity].
  unfold ret. rewrite convert_i_spec.
  now destruct (int_value g).
Qed.

(** The count of the arguments is checked before any of them is looked at. *)
Lemma parse_count (u1 u2 : FormatUnit) (args : list PyObject) (w : World) :
  length args <> 2%nat ->
  PyArg_ParseTuple args [u1; u2] w =
    Done None (set_py_error (Some (TypeError_arg_count 2 (length args))) w).
Proof.
  intros H. unfold PyArg_ParseTuple. simpl.
  destruct (Nat.eqb_spec (length args) 2); [contradiction|reflexivity].
Qed.

(** What a successful parse of the module's format tells. *)
Lemma parse_ok_inv (type : option PyObject) (args : list PyObject)
    (w w' : World) (vals : list ArgValue) :
  PyArg_ParseTuple args [Fmt_O_bang type; Fmt_i] w = Done (Some vals) w' ->
  exists t a g n,
    type = Some (PyType t) /\ args = [a; g] /\
    PyType_IsSubtype a t = true /\ int_value g = Some n /\
    vals = [ArgObject a; ArgInt n] /\ w' = w.
Proof.
  intros H.
  destruct (Nat.eq_dec (length args) 2%nat) as [L|L].
  - destruct args as [|a [|g [|? ?]]]; try discriminate.
    destruct type as [[| | | |t| |]|];
      try (unfold PyArg_ParseTuple, bind in H; simpl in H; discriminate).
    rewrite parse_two in H.
    destruct (PyType_IsSubtype a t) eqn:S; [|discriminate].
    destruct (int_value g) as [n|] eqn:I; [|discriminate].
    injection H as <- <-. exists t, a, g, n. auto 10.
  - rewrite parse_count in H by exact L. discriminate.
Qed.

(** ** Running [hardkeys_grab_zoom_keys] *)

(** The straight path: a realized widget of an accepted class, an accepted
    flag, an open connection. *)
Lemma grab_zoom_keys_run (self : PyObject) (w : World) (t : string)
    (mro : list string) (gw : GdkWindow) (g : PyObject) (n : Z)
    (s s1 s2 : XServer) (a : Atom) (rp : XReply) :
  PyGObject_Type w = Some (PyType t) ->
  existsb (String.eqb t) mro = true ->
  int_value g = Some n ->
  displays w !! gdk_xdisplay gw = Some s ->
  intern_atom zoom_key_atom_name false s = (a, s1) ->
  change_property (gdk_xid gw) a XA_INTEGER 32 PropModeReplace
    [if n =? 0 then 0 else 1] 1 s1 = (rp, s2) ->
  hardkeys_grab_zoom_keys self [realized_widget mro gw; g] w =
    Done (Some Py_None) (grab_post w gw a (if n =? 0 then 0 else 1) rp s2).
Proof.
  intros HT HS HI HD HA HC.
  unfold hardkeys_grab_zoom_keys, bind at 1, gets. rewrite HT.
  unfold bind at 1. rewrite parse_two.
  unfold PyType_IsSubtype, realized_widget at 1. simpl tp_mro. rewrite HS, HI.
  unfold realized_widget, pygobject_obj, GTK_WIDGET, bind, ret. simpl.
  unfold gets, bind. rewrite HD, HA. simpl.
  rewrite lookup_insert_eq, (intern_atom_again _ _ _ _ HA). simpl.
  rewrite lookup_insert_eq, HC. simpl.
  unfold grab_post, send. simpl. f_equal. f_equal.
  - now rewrite !insert_insert_eq.
  - now rewrite <- !app_assoc.
Qed.

(** Every call that returns took one of two paths: the parse failed, NULL
    is returned and only the error indicator changed; or the straight path
    was taken. *)
Lemma grab_zoom_keys_cases (self : PyObject) (args : list PyObject)
    (w w' : World) (r : option PyObject) :
  hardkeys_grab_zoom_keys self args w = Done r w' ->
  (r = None /\
   exists e,
     w' = set_py_error (Some e) w /\
     ((length args <> 2%nat /\ e = TypeError_arg_count 2 (length args)) \/
      exists t a g,
        args = [a; g] /\ PyGObject_Type w = Some (PyType t) /\
        ((PyType_IsSubtype a t = false /\ e = TypeError_arg_type 1) \/
         (PyType_IsSubtype a t = true /\ int_value g = None /\
          e = int_error 2 g))))
  \/
  (r = Some Py_None /\
   exists t mro gw g n s a s1 rp s2,
     args = [realized_widget mro gw; g] /\
     PyGObject_Type w = Some (PyType t) /\
     existsb (String.eqb t) mro = true /\
     int_value g = Some n /\
     displays w !! gdk_xdisplay gw = Some s /\
     intern_atom zoom_key_atom_name false s = (a, s1) /\
     change_property (gdk_xid gw) a XA_INTEGER 32 PropModeReplace
       [if n =? 0 then 0 else 1] 1 s1 = (rp, s2) /\
     w' = grab_post w gw a (if n =? 0 then 0 else 1) rp s2).
Proof.
  intros H.
  destruct (Nat.eq_dec (length args) 2%nat) as [L|L].
  2:{ left. unfold hardkeys_grab_zoom_keys, bind at 1, gets in H.
      unfold bind at 1 in H. rewrite parse_count in H by exact L.
      injection H as <- <-. eauto 10. }
  destruct args as [|a0 [|g [|? ?]]]; try discriminate. clear L.
  destruct (PyGObject_Type w) as [[| | | |t| |]|] eqn:HT;
    try (unfold hardkeys_grab_zoom_keys, bind at 1, gets in H;
         rewrite HT in H; discriminate).
  destruct (PyType_IsSubtype a0 t) eqn:HS.
  2:{ left. unfold hardkeys_grab_zoom_keys, bind at 1, gets in H.
      rewrite HT in H. unfold bind at 1 in H. rewrite parse_two, HS in H.
      injection H as <- <-. split; [reflexivity|]. eexists. split; [reflexivity|].
      right. exists t, a0, g. auto. }
  destruct (int_value g) as [n|] eqn:HI.
  2:{ left. unfold hardkeys_grab_zoom_keys, bind at 1, gets in H.
      rewrite HT in H. unfold bind at 1 in H. rewrite parse_two, HS, HI in H.
      injection H as <- <-. split; [reflexivity|]. eexists. split; [reflexivity|].
      right. exists t, a0, g. auto 10. }
  right.
  assert (HW : exists mro gw s, a0 = realized_widget mro gw /\
                                displays w !! gdk_xdisplay gw = Some s).
  { unfold hardkeys_grab_zoom_keys, bind at 1, gets in H.
    rewrite HT in H. unfold bind at 1 in H. rewrite parse_two, HS, HI in H.
    destruct a0 as [| | | | | |mro [[[gw|]]|]]; try discriminate.
    exists mro, gw.
    destruct (displays w !! gdk_xdisplay gw) as [s|] eqn:HD.
    - exists s. auto.
    - unfold pygobject_obj, GTK_WIDGET, bind, ret in H. simpl in H.
      unfold gets, bind in H. rewrite HD in H. discriminate. }
  destruct HW as (mro & gw & s & -> & HD).
  destruct (intern_atom zoom_key_atom_name false s) as [a s1] eqn:HA.
  destruct (change_property (gdk_xid gw) a XA_INTEGER 32 PropModeReplace
              [if n =? 0 then 0 else 1] 1 s1) as [rp s2] eqn:HC.
  rewrite (grab_zoom_keys_run self w t mro gw g n s s1 s2 a rp HT HS HI HD HA HC)
    in H.
  injection H as <- <-. split; [reflexivity|].
  exists t, mro, gw, g, n, s, a, s1, rp, s2. auto 12.
Qed.

(** ** The property after a call *)

(** What a client reads back after the straight path was taken on a
    well-formed server that has the window. *)
Lemma zoom_key_property_written (w : World) (gw : GdkWindow) (n : Z)
    (s s1 s2 : XServer) (a : Atom) (rp : XReply) :
  well_formed s ->
  In (gdk_xid gw) (windows s) ->
  intern_atom zoom_key_atom_name false s = (a, s1) ->
  change_property (gdk_xid gw) a XA_INTEGER 32 PropModeReplace
    [if n =? 0 then 0 else 1] 1 s1 = (rp, s2) ->
  rp = ReplyOk /\
  zoom_key_property (grab_post w gw a (if n =? 0 then 0 else 1) rp s2) gw =
    Some (mkProperty XA_INTEGER 32 [if n =? 0 then 0 else 1]).
Proof.
  intros W HW HA HC.
  destruct (intern_atom_frame _ _ _ _ HA) as (EW & _ & _).
  rewrite change_property_flag in HC.
  rewrite EW, (proj2 (existsb_window _ _) HW) in HC.
  rewrite (intern_atom_valid _ _ _ _ HA) in HC.
  rewrite (well_formed_XA_INTEGER _ (well_formed_intern _ _ _ _ HA W)) in HC.
  simpl in HC. injection HC as <- <-. split; [reflexivity|].
  unfold zoom_key_property, grab_post. simpl.
  rewrite lookup_insert_eq. unfold get_property.
  change (lookup_atom zoom_key_atom_name (set_property s1 _ a _))
    with (lookup_atom zoom_key_atom_name s1).
  rewrite (intern_atom_lookup _ _ _ _ HA). simpl.
  apply lookup_insert_eq.
Qed.

(** C1.  A call with a valid, realized widget and a boolean [grab] returns
    None and leaves the property [_HILDON_ZOOM_KEY_ATOM] of the widget's
    window holding the integer 1 when [grab] is true and 0 when it is false.
    Valid and realized: the widget's class derives from the stored GObject
    type, its GdkWindow exists, the connection of that window is open, and
    the server behind it has the window. *)
Theorem grab_zoom_keys_sets_property (self : PyObject) (w : World)
    (t : string) (mro : list string) (gw : GdkWindow) (s : XServer)
    (grab : bool) :
  PyGObject_Type w = Some (PyType t) ->
  PyType_IsSubtype (realized_widget mro gw) t = true ->
  displays w !! gdk_xdisplay gw = Some s ->
  well_formed s ->
  In (gdk_xid gw) (windows s) ->
  exists w',
    hardkeys_grab_zoom_keys self [realized_widget mro gw; PyBool grab] w =
      Done (Some Py_None) w' /\
    zoom_key_property w' gw =
      Some (mkProperty XA_INTEGER 32 [if grab then 1 else 0]).
Proof.
  intros HT HS HD W HW.
  destruct (intern_atom zoom_key_atom_name false s) as [a s1] eqn:HA.
  set (n := if grab then 1 else 0).
  destruct (change_property (gdk_xid gw) a XA_INTEGER 32 PropModeReplace
              [if n =? 0 then 0 else 1] 1 s1) as [rp s2] eqn:HC.
  exists (grab_post w gw a (if n =? 0 then 0 else 1) rp s2). split.
  - apply (grab_zoom_keys_run self w t mro gw (PyBool grab) n s s1 s2 a rp);
      auto.
  - destruct (zoom_key_property_written w gw n s s1 s2 a rp W HW HA HC)
      as [_ ->].
    subst n. now destruct grab.
Qed.

Lemma grab_zoom_keys_sets_property_witness :
  exists w',
    hardkeys_grab_zoom_keys Py_None [Sample.realized; PyBool true]
      Sample.loaded = Done (Some Py_None) w' /\
    zoom_key_property w' Sample.gdk_window =
      Some (mkProperty XA_INTEGER 32 [1]).
Proof.
  apply (grab_zoom_keys_sets_property Py_None Sample.loaded "gobject.GObject"
           Sample.Window_mro Sample.gdk_window Sample.server true).
  - reflexivity.
  - reflexivity.
  - reflexivity.
  - reflexivity.
  - simpl. left. reflexivity.
Defined.

(** ** Argument errors *)

(** C2, as stated, fails: an instance of a GObject class that wraps no
    widget (a gtk.ListStore) is not widget-typed, yet it passes the parse,
    which compares with the GObject base type; no error is set and NULL is
    not returned. *)
Lemma non_widget_gobject_is_not_rejected :
  wraps_widget Sample.list_store = false /\
  PyType_IsSubtype Sample.list_store "gtk.Widget" = false /\
  PyArg_ParseTuple [Sample.list_store; PyBool true]
    [Fmt_O_bang (PyGObject_Type Sample.loaded); Fmt_i] Sample.loaded =
    Done (Some [ArgObject Sample.list_store; ArgInt 1]) Sample.loaded /\
  py_error Sample.loaded = None /\
  hardkeys_grab_zoom_keys Py_None [Sample.list_store; PyBool true]
    Sample.loaded = Undefined /\
  forall w', hardkeys_grab_zoom_keys Py_None
               [Sample.list_store; PyBool true] Sample.loaded
             <> Done None w'.
Proof.
  repeat split; try reflexivity. intros w' H. vm_compute in H. discriminate.
Qed.

(** C2, amended.  A call whose first argument is not an instance of the
    stored GObject base type returns NULL with a TypeError set, which for a
    two-argument call is the TypeError of argument 1; nothing but the
    error indicator changes, so no request is sent and every property keeps
    its value. *)
Theorem non_gobject_argument_raises (self : PyObject) (w : World) (t : string)
    (a : PyObject) (rest : list PyObject) :
  PyGObject_Type w = Some (PyType t) ->
  PyType_IsSubtype a t = false ->
  exists e,
    hardkeys_grab_zoom_keys self (a :: rest) w =
      Done None (set_py_error (Some e) w) /\
    is_TypeError e = true /\
    (length rest = 1%nat -> e = TypeError_arg_type 1) /\
    displays (set_py_error (Some e) w) = displays w /\
    wire (set_py_error (Some e) w) = wire w.
Proof.
  intros HT HS.
  unfold hardkeys_grab_zoom_keys, bind at 1, gets. rewrite HT.
  unfold bind at 1.
  destruct rest as [|g [|g' rest]].
  - rewrite parse_count by (simpl; lia).
    eexists. split; [reflexivity|]. repeat split. discriminate.
  - rewrite parse_two, HS.
    eexists. split; [reflexivity|]. repeat split.
  - rewrite parse_count by (simpl; lia).
    eexists. split; [reflexivity|]. repeat split. discriminate.
Qed.

Lemma non_gobject_argument_raises_witness :
  exists e,
    hardkeys_grab_zoom_keys Py_None [PyString "window"; PyBool true]
      Sample.loaded = Done None (set_py_error (Some e) Sample.loaded) /\
    is_TypeError e = true /\
    (length [PyBool true] = 1%nat -> e = TypeError_arg_type 1) /\
    displays (set_py_error (Some e) Sample.loaded) = displays Sample.loaded /\
    wire (set_py_error (Some e) Sample.loaded) = wire Sample.loaded.
Proof.
  apply (non_gobject_argument_raises Py_None Sample.loaded "gobject.GObject"
           (PyString "window") [PyBool true]).
  - reflexivity.
  - reflexivity.
Defined.

(** C3.  A call with fewer or more than two arguments returns NULL with the
    argument-count TypeError set, whatever the arguments and the state are;
    nothing but the error indicator changes, so no request is sent and no
    property is written. *)
Theorem wrong_argument_count_raises (self : PyObject) (args : list PyObject)
    (w : World) :
  length args <> 2%nat ->
  hardkeys_grab_zoom_keys self args w =
    Done None (set_py_error (Some (TypeError_arg_count 2 (length args))) w)
  /\ PyGObject_Type (set_py_error (Some (TypeError_arg_count 2 (length args))) w)
     = PyGObject_Type w
  /\ displays (set_py_error (Some (TypeError_arg_count 2 (length args))) w)
     = displays w
  /\ wire (set_py_error (Some (TypeError_arg_count 2 (length args))) w)
     = wire w.
Proof.
  intros L. repeat split.
  unfold hardkeys_grab_zoom_keys, bind at 1, gets. unfold bind at 1.
  now rewrite parse_count.
Qed.

Lemma wrong_argument_count_raises_witness :
  hardkeys_grab_zoom_keys Py_None [Sample.realized] Sample.loaded =
    Done None (set_py_error (Some (TypeError_arg_count 2 1)) Sample.loaded)
  /\ hardkeys_grab_zoom_keys Py_None
       [Sample.realized; PyBool true; PyBool false] Sample.loaded =
    Done None (set_py_error (Some (TypeError_arg_count 2 3)) Sample.loaded).
Proof.
  split.
  - apply (wrong_argument_count_raises Py_None [Sample.realized] Sample.loaded).
    simpl. lia.
  - apply (wrong_argument_count_raises Py_None
             [Sample.realized; PyBool true; PyBool false] Sample.loaded).
    simpl. lia.
Defined.

(** ** The return value *)

(** C4.  A call that passes the argument check, on a realized widget whose
    connection is open, returns None and leaves the error indicator as it
    was, whatever the server answers to the property write: when the server
    does not have the window the answer is BadWindow, and the call returns
    None all the same. *)
Theorem returns_none_whatever_the_server_answers (self : PyObject)
    (args : list PyObject) (w w1 : World) (vals : list ArgValue)
    (mro : list string) (gw : GdkWindow) (s : XServer) :
  PyArg_ParseTuple args [Fmt_O_bang (PyGObject_Type w); Fmt_i] w =
    Done (Some vals) w1 ->
  hd Py_None args = realized_widget mro gw ->
  displays w !! gdk_xdisplay gw = Some s ->
  exists a v rp s2,
    hardkeys_grab_zoom_keys self args w =
      Done (Some Py_None) (grab_post w gw a v rp s2) /\
    py_error (grab_post w gw a v rp s2) = py_error w /\
    (~ In (gdk_xid gw) (windows s) -> rp = ReplyError BadWindow).
Proof.
  intros HP HH HD.
  destruct (parse_ok_inv _ _ _ _ _ HP) as (t & a0 & g & n & HT & -> & HS & HI & _ & _).
  simpl in HH. subst a0.
  destruct (intern_atom zoom_key_atom_name false s) as [a s1] eqn:HA.
  destruct (change_property (gdk_xid gw) a XA_INTEGER 32 PropModeReplace
              [if n =? 0 then 0 else 1] 1 s1) as [rp s2] eqn:HC.
  exists a, (if n =? 0 then 0 else 1), rp, s2. split; [|split].
  - now apply (grab_zoom_keys_run self w t mro gw g n s s1 s2 a rp).
  - reflexivity.
  - intros HN. rewrite change_property_flag in HC.
    destruct (intern_atom_frame _ _ _ _ HA) as (EW & _ & _). rewrite EW in HC.
    destruct (existsb (N.eqb (gdk_xid gw)) (windows s)) eqn:E.
    + apply existsb_window in E. contradiction.
    + now injection HC as <- _.
Qed.

Lemma returns_none_whatever_the_server_answers_witness :
  exists a v rp s2,
    hardkeys_grab_zoom_keys Py_None [Sample.stale; PyInt 1] Sample.loaded =
      Done (Some Py_None) (grab_post Sample.loaded Sample.stale_window a v rp s2) /\
    py_error (grab_post Sample.loaded Sample.stale_window a v rp s2) =
      py_error Sample.loaded /\
    (~ In (gdk_xid Sample.stale_window) (windows Sample.bare_server) ->
     rp = ReplyError BadWindow).
Proof.
  apply (returns_none_whatever_the_server_answers Py_None
           [Sample.stale; PyInt 1] Sample.loaded Sample.loaded
           [ArgObject Sample.stale; ArgInt 1] Sample.Window_mro
           Sample.stale_window Sample.bare_server).
  - reflexivity.
  - reflexivity.
  - reflexivity.
Defined.

(** ** Calling twice *)

(** C5.  Two calls in succession with the same widget and the same [grab]
    value: the second returns None as the first did and leaves every server,
    and so the property, as the first call left it. *)
Theorem grab_zoom_keys_idempotent (self : PyObject) (w : World) (t : string)
    (mro : list string) (gw : GdkWindow) (s : XServer) (g : PyObject) :
  PyGObject_Type w = Some (PyType t) ->
  PyType_IsSubtype (realized_widget mro gw) t = true ->
  displays w !! gdk_xdisplay gw = Some s ->
  is_Some (int_value g) ->
  exists w1 w2,
    hardkeys_grab_zoom_keys self [realized_widget mro gw; g] w =
      Done (Some Py_None) w1 /\
    hardkeys_grab_zoom_keys self [realized_widget mro gw; g] w1 =
      Done (Some Py_None) w2 /\
    displays w2 = displays w1 /\
    zoom_key_property w2 gw = zoom_key_property w1 gw.
Proof.
  intros HT HS HD [n HI].
  destruct (intern_atom zoom_key_atom_name false s) as [a s1] eqn:HA.
  destruct (change_property (gdk_xid gw) a XA_INTEGER 32 PropModeReplace
              [if n =? 0 then 0 else 1] 1 s1) as [rp s2] eqn:HC.
  set (v := if n =? 0 then 0 else 1) in *.
  set (w1 := grab_post w gw a v rp s2).
  assert (HA2 : intern_atom zoom_key_atom_name false s2 = (a, s2)).
  { pose proof (intern_atom_lookup _ _ _ _ HA) as HL.
    unfold intern_atom.
    destruct (change_property_flag_cases _ _ _ _ _ _ HC) as [[_ ->]|[_ ->]];
      [change (lookup_atom zoom_key_atom_name (set_property s1 _ a _))
         with (lookup_atom zoom_key_atom_name s1)|];
      now rewrite HL. }
  pose proof (change_property_flag_again _ _ _ _ _ _ HC) as HC2.
  assert (D1 : displays w1 !! gdk_xdisplay gw = Some s2)
    by apply lookup_insert_eq.
  exists w1, (grab_post w1 gw a v rp s2). repeat split.
  - now apply (grab_zoom_keys_run self w t mro gw g n s s1 s2 a rp).
  - now apply (grab_zoom_keys_run self w1 t mro gw g n s2 s2 s2 a rp).
  - unfold grab_post, w1. simpl. apply insert_insert_eq.
  - unfold zoom_key_property, grab_post, w1. simpl.
    now rewrite insert_insert_eq.
Qed.

Lemma grab_zoom_keys_idempotent_witness :
  exists w1 w2,
    hardkeys_grab_zoom_keys Py_None [Sample.realized; PyBool true]
      Sample.loaded = Done (Some Py_None) w1 /\
    hardkeys_grab_zoom_keys Py_None [Sample.realized; PyBool true] w1 =
      Done (Some Py_None) w2 /\
    displays w2 = displays w1 /\
    zoom_key_property w2 Sample.gdk_window =
      zoom_key_property w1 Sample.gdk_window.
Proof.
  apply (grab_zoom_keys_idempotent Py_None Sample.loaded "gobject.GObject"
           Sample.Window_mro Sample.gdk_window Sample.server (PyBool true)).
  - reflexivity.
  - reflexivity.
  - reflexivity.
  - exists 1. reflexivity.
Defined.

(** ** The request on the wire *)

(** C6.  Every ChangeProperty request a call sends has type INTEGER,
    format 32, mode PropModeReplace and one item, 0 or 1; its property atom
    is the atom of the name [_HILDON_ZOOM_KEY_ATOM] on that server; and when
    the server accepts it, the property of that window is that one item,
    whatever it held before.  The only other requests of a call intern that
    same name. *)
Theorem property_write_format (self : PyObject) (args : list PyObject)
    (w w' : World) (r : option PyObject) :
  hardkeys_grab_zoom_keys self args w = Done r w' ->
  exists new,
    wire w' = wire w ++ new /\
    forall rq rp, In (rq, rp) new ->
      match rq with
      | ChangeProperty d win a type format mode data nelements =>
          type = XA_INTEGER /\ format = 32 /\ mode = PropModeReplace /\
          nelements = 1%nat /\ (data = [0] \/ data = [1]) /\
          exists s',
            displays w' !! d = Some s' /\
            lookup_atom zoom_key_atom_name s' = Some a /\
            (rp = ReplyOk ->
             properties s' !! (win, a) = Some (mkProperty XA_INTEGER 32 data))
      | InternAtom _ name only_if_exists =>
          name = zoom_key_atom_name /\ only_if_exists = false
      end.
Proof.
  intros H.
  destruct (grab_zoom_keys_cases _ _ _ _ _ H)
    as [(-> & e & -> & _)
       |(-> & t & mro & gw & g & n & s & a & s1 & rp & s2
            & -> & HT & HS & HI & HD & HA & HC & ->)].
  - exists []. split; [now rewrite app_nil_r|]. intros rq rp [].
  - eexists. split; [reflexivity|].
    intros rq rp' [E|[E|[E|[]]]]; injection E as <- <-; try (split; reflexivity).
    repeat split.
    + destruct (n =? 0); auto.
    + exists s2. split; [apply lookup_insert_eq|].
      pose proof (intern_atom_lookup _ _ _ _ HA) as HL.
      destruct (change_property_flag_cases _ _ _ _ _ _ HC) as [[_ ->]|[[e ->] ->]].
      * split; [exact HL|]. intros _. apply lookup_insert_eq.
      * split; [exact HL|]. discriminate.
Qed.

Lemma property_write_format_witness :
  exists new,
    wire (Sample.after [Sample.realized; PyBool true]) =
      wire Sample.loaded ++ new /\
    forall rq rp, In (rq, rp) new ->
      match rq with
      | ChangeProperty d win a type format mode data nelements =>
          type = XA_INTEGER /\ format = 32 /\ mode = PropModeReplace /\
          nelements = 1%nat /\ (data = [0] \/ data = [1]) /\
          exists s',
            displays (Sample.after [Sample.realized; PyBool true]) !! d
              = Some s' /\
            lookup_atom zoom_key_atom_name s' = Some a /\
            (rp = ReplyOk ->
             properties s' !! (win, a) = Some (mkProperty XA_INTEGER 32 data))
      | InternAtom _ name only_if_exists =>
          name = zoom_key_atom_name /\ only_if_exists = false
      end.
Proof.
  apply (property_write_format Py_None [Sample.realized; PyBool true]
           Sample.loaded (Sample.after [Sample.realized; PyBool true])
           (Some Py_None)).
  reflexivity.
Defined.

(** ** What a call leaves alone *)

(** C7, as stated, fails: on a server where the name has not been interned
    yet, a successful call changes the atom table of the server as well,
    which is server state other than the value of the property. *)
Lemma call_interns_the_atom_name :
  lookup_atom zoom_key_atom_name Sample.server = None /\
  exists w' s',
    hardkeys_grab_zoom_keys Py_None [Sample.realized; PyBool true]
      Sample.loaded = Done (Some Py_None) w' /\
    displays w' !! 0%N = Some s' /\
    atom_names s' = atom_names Sample.server ++ [zoom_key_atom_name] /\
    atom_names s' <> atom_names Sample.server /\
    lookup_atom zoom_key_atom_name s' = Some 69%N.
Proof.
  split; [reflexivity|].
  exists (Sample.after [Sample.realized; PyBool true]).
  exists (mkXServer (predefined_atoms ++ [zoom_key_atom_name]) [Sample.xid]
            {[ (Sample.xid, 69%N) := mkProperty XA_INTEGER 32 [1] ]}).
  split; [reflexivity|]. split; [reflexivity|].
  split; [reflexivity|]. split; [|reflexivity].
  intros E. apply (f_equal (@length string)) in E. vm_compute in E. discriminate.
Qed.

(** C7, amended.  A successful call changes the value of the named property
    on the window of the widget and, when the name was not interned on that
    server before, adds the name at the end of the server's atom table;
    nothing else changes: the module's stored type, the interpreter's
    modules and error indicator, the servers of the other connections, the
    windows of this server and every other property on it are as before. *)
Theorem grab_zoom_keys_frame (self : PyObject) (args : list PyObject)
    (w w' : World) :
  hardkeys_grab_zoom_keys self args w = Done (Some Py_None) w' ->
  exists mro gw g s s' a,
    args = [realized_widget mro gw; g] /\
    displays w !! gdk_xdisplay gw = Some s /\
    displays w' !! gdk_xdisplay gw = Some s' /\
    lookup_atom zoom_key_atom_name s' = Some a /\
    PyGObject_Type w' = PyGObject_Type w /\
    py_modules w' = py_modules w /\
    py_error w' = py_error w /\
    (forall d, d <> gdk_xdisplay gw -> displays w' !! d = displays w !! d) /\
    windows s' = windows s /\
    (atom_names s' = atom_names s \/
     (lookup_atom zoom_key_atom_name s = None /\
      atom_names s' = atom_names s ++ [zoom_key_atom_name])) /\
    (forall other b, lookup_atom other s = Some b ->
                     lookup_atom other s' = Some b) /\
    (forall k, k <> (gdk_xid gw, a) -> properties s' !! k = properties s !! k).
Proof.
  intros H.
  destruct (grab_zoom_keys_cases _ _ _ _ _ H)
    as [(E & _)
       |(_ & t & mro & gw & g & n & s & a & s1 & rp & s2
            & -> & HT & HS & HI & HD & HA & HC & ->)]; [discriminate|].
  exists mro, gw, g, s, s2, a.
  pose proof (intern_atom_lookup _ _ _ _ HA) as HL.
  destruct (intern_atom_frame _ _ _ _ HA) as (EW & EP & EA).
  assert (EA' : atom_names s1 = atom_names s \/
                (lookup_atom zoom_key_atom_name s = None /\
                 atom_names s1 = atom_names s ++ [zoom_key_atom_name])).
  { destruct EA as [[_ ->]|[? ?]]; auto. }
  split; [reflexivity|]. split; [exact HD|].
  split; [apply lookup_insert_eq|].
  pose proof (fun other b => intern_atom_keeps _ _ _ _ other b HA) as HK.
  destruct (change_property_flag_cases _ _ _ _ _ _ HC) as [[_ ->]|[_ ->]].
  - repeat split; auto.
    + intros d Hd. unfold grab_post. simpl. now apply lookup_insert_ne.
    + intros k Hk. simpl. rewrite lookup_insert_ne by congruence.
      now rewrite EP.
  - repeat split; auto.
    + intros d Hd. unfold grab_post. simpl. now apply lookup_insert_ne.
    + intros k _. now rewrite EP.
Qed.

Lemma grab_zoom_keys_frame_witness :
  exists mro gw g s s' a,
    [Sample.realized; PyBool false] = [realized_widget mro gw; g] /\
    displays Sample.loaded !! gdk_xdisplay gw = Some s /\
    displays (Sample.after [Sample.realized; PyBool false]) !! gdk_xdisplay gw
      = Some s' /\
    lookup_atom zoom_key_atom_name s' = Some a /\
    PyGObject_Type (Sample.after [Sample.realized; PyBool false])
      = PyGObject_Type Sample.loaded /\
    py_modules (Sample.after [Sample.realized; PyBool false])
      = py_modules Sample.loaded /\
    py_error (Sample.after [Sample.realized; PyBool false])
      = py_error Sample.loaded /\
    (forall d, d <> gdk_xdisplay gw ->
       displays (Sample.after [Sample.realized; PyBool false]) !! d
         = displays Sample.loaded !! d) /\
    windows s' = windows s /\
    (atom_names s' = atom_names s \/
     (lookup_atom zoom_key_atom_name s = None /\
      atom_names s' = atom_names s ++ [zoom_key_atom_name])) /\
    (forall other b, lookup_atom other s = Some b ->
                     lookup_atom other s' = Some b) /\
    (forall k, k <> (gdk_xid gw, a) -> properties s' !! k = properties s !! k).
Proof.
  apply (grab_zoom_keys_frame Py_None [Sample.realized; PyBool false]
           Sample.loaded (Sample.after [Sample.realized; PyBool false])).
  reflexivity.
Defined.

(** ** Module initialization and the stored type *)

(** No call assigns the static [PyGObject_Type]. *)
Lemma call_keeps_PyGObject_Type (self : PyObject) (args : list PyObject)
    (w w' : World) (r : option PyObject) :
  hardkeys_grab_zoom_keys self args w = Done r w' ->
  PyGObject_Type w' = PyGObject_Type w.
Proof.
  intros H.
  destruct (grab_zoom_keys_cases _ _ _ _ _ H)
    as [(_ & e & -> & _)
       |(_ & t & mro & gw & g & n & s & a & s1 & rp & s2 & _ & _ & _ & _ & _
           & _ & _ & ->)]; reflexivity.
Qed.

Lemma run_calls_keep_PyGObject_Type (calls : list (list PyObject)) :
  forall w w', run_calls calls w = Some w' ->
               PyGObject_Type w' = PyGObject_Type w.
Proof.
  induction calls as [|args calls IH]; simpl; intros w w' H.
  - now injection H as <-.
  - destruct (hardkeys_grab_zoom_keys Py_None args w) as [r w1|] eqn:E;
      [|discriminate].
    rewrite (IH _ _ H). exact (call_keeps_PyGObject_Type _ _ _ _ _ E).
Qed.

(** With a type object stored, the first argument of a two-argument call is
    refused with the TypeError of argument 1 exactly when its type is no
    subtype of the stored one. *)
Lemma first_argument_checked_against (self : PyObject) (w : World) (t : string)
    (a g : PyObject) :
  PyGObject_Type w = Some (PyType t) ->
  (PyType_IsSubtype a t = false <->
   hardkeys_grab_zoom_keys self [a; g] w =
     Done None (set_py_error (Some (TypeError_arg_type 1)) w)).
Proof.
  intros HT. split.
  - intros HS. unfold hardkeys_grab_zoom_keys, bind at 1, gets. rewrite HT.
    unfold bind at 1. now rewrite parse_two, HS.
  - intros H.
    destruct (grab_zoom_keys_cases _ _ _ _ _ H)
      as [(_ & e & E & [[L _]|(t' & a' & g' & [= <- <-] & HT' & C)])
         |(? & _)]; [now simpl in L| |discriminate].
    rewrite HT in HT'. injection HT' as <-.
    destruct C as [[HS _]|(_ & HI & ->)]; [exact HS|].
    apply (f_equal py_error) in E. simpl in E.
    destruct g; simpl in E, HI; discriminate.
Qed.

(** [inithardkeys] always returns; when it returns with no error pending,
    that is when [import hardkeys] succeeds, both modules were importable
    and the static holds what [gobject.GObject] is. *)
Lemma init_without_error_stores (mods : gmap string (gmap string PyObject))
    (conns : gmap Display XServer) :
  exists w0,
    inithardkeys (process_start mods conns) = Done tt w0 /\
    (py_error w0 = None ->
     exists gobject v,
       mods !! "gobject" = Some gobject /\ is_Some (mods !! "gtk") /\
       gobject !! "GObject" = Some v /\ PyGObject_Type w0 = Some v).
Proof.
  unfold inithardkeys, Py_InitModule, init_pygobject, init_pygtk,
    PyImport_ImportModule, bind, modify, gets, ret. simpl.
  rewrite lookup_insert_ne by discriminate.
  destruct (mods !! "gobject") as [gobject|] eqn:HG; simpl;
    [|eexists; split; [reflexivity|discriminate]].
  rewrite lookup_insert_ne by discriminate.
  destruct (mods !! "gtk") as [gtk|] eqn:HK; simpl;
    [|eexists; split; [reflexivity|discriminate]].
  rewrite lookup_insert_ne by discriminate. rewrite HG.
  unfold PyObject_GetAttrString, PyErr_Set, bind, modify, ret.
  destruct (gobject !! "GObject") as [v|] eqn:HA; simpl;
    [|eexists; split; [reflexivity|discriminate]].
  eexists. split; [reflexivity|]. intros _. exists gobject, v. eauto.
Qed.

(** C8.  When the modules [gobject] and [gtk] can be imported and [gobject]
    has the type object [GObject], [inithardkeys] returns with that type
    object stored in the one static [PyGObject_Type]; after any sequence of
    calls of [grab_zoom_keys] the static still holds it (nothing resets it),
    and in each such state a call refuses its first argument exactly when
    the argument's type is no subtype of that stored type. *)
Theorem init_stores_the_type_every_call_checks
    (mods : gmap string (gmap string PyObject))
    (conns : gmap Display XServer) (gobject : gmap string PyObject)
    (t : string) :
  mods !! "gobject" = Some gobject ->
  is_Some (mods !! "gtk") ->
  gobject !! "GObject" = Some (PyType t) ->
  exists w0,
    inithardkeys (process_start mods conns) = Done tt w0 /\
    PyGObject_Type w0 = Some (PyType t) /\
    displays w0 = conns /\
    forall calls w,
      run_calls calls w0 = Some w ->
      PyGObject_Type w = Some (PyType t) /\
      forall self a g,
        PyType_IsSubtype a t = false <->
        hardkeys_grab_zoom_keys self [a; g] w =
          Done None (set_py_error (Some (TypeError_arg_type 1)) w).
Proof.
  intros HG [gtk HK] HA.
  eexists. split; [|split; [|split]].
  - unfold inithardkeys, Py_InitModule, init_pygobject, init_pygtk,
      PyImport_ImportModule, bind, modify, gets, ret. simpl.
    rewrite lookup_insert_ne by discriminate. rewrite HG. simpl.
    rewrite lookup_insert_ne by discriminate. rewrite HK. simpl.
    rewrite lookup_insert_ne by discriminate. rewrite HG.
    unfold PyObject_GetAttrString, ret. rewrite HA. reflexivity.
  - reflexivity.
  - reflexivity.
  - intros calls w HR.
    pose proof (run_calls_keep_PyGObject_Type _ _ _ HR) as HT. simpl in HT.
    split; [exact HT|]. intros self a g.
    now apply first_argument_checked_against.
Qed.

Lemma init_stores_the_type_every_call_checks_witness :
  exists w0,
    inithardkeys Sample.start = Done tt w0 /\
    PyGObject_Type w0 = Some (PyType "gobject.GObject") /\
    displays w0 = displays Sample.start /\
    forall calls w,
      run_calls calls w0 = Some w ->
      PyGObject_Type w = Some (PyType "gobject.GObject") /\
      forall self a g,
        PyType_IsSubtype a "gobject.GObject" = false <->
        hardkeys_grab_zoom_keys self [a; g] w =
          Done None (set_py_error (Some (TypeError_arg_type 1)) w).
Proof.
  apply (init_stores_the_type_every_call_checks Sample.modules
           (displays Sample.start) Sample.gobject_module "gobject.GObject").
  - reflexivity.
  - exists Sample.gtk_module. reflexivity.
  - reflexivity.
Defined.

(** ** The flag *)

(** C9, as stated, fails: the integer 2^31 is not accepted.  The ["i"] unit
    stores into a C [int]; the call returns NULL with OverflowError set and
    sends nothing. *)
Lemma integer_beyond_int_is_refused :
  hardkeys_grab_zoom_keys Py_None [Sample.realized; PyInt 2147483648]
    Sample.loaded =
    Done None (set_py_error (Some (OverflowError_arg 2)) Sample.loaded) /\
  wire (Sample.after [Sample.realized; PyInt 2147483648]) = [] /\
  zoom_key_property (Sample.after [Sample.realized; PyInt 2147483648])
    Sample.gdk_window = None.
Proof. repeat split. Qed.

(** C9, amended.  [grab] is accepted as any integer that fits a C [int],
    from -2^31 to 2^31-1, not only as a boolean; for each one, on a valid,
    realized widget, the call returns None and the property holds the one
    item that is 1 exactly when [grab] is not zero and 0 when it is zero.
    Every integer outside that range is refused: the call returns NULL with
    the OverflowError of argument 2 set, sends nothing and leaves every
    server, and so the property, as it was. *)
Theorem any_int_is_a_flag (self : PyObject) (w : World) (t : string)
    (mro : list string) (gw : GdkWindow) (s : XServer) (grab : Z) :
  PyGObject_Type w = Some (PyType t) ->
  PyType_IsSubtype (realized_widget mro gw) t = true ->
  displays w !! gdk_xdisplay gw = Some s ->
  well_formed s ->
  In (gdk_xid gw) (windows s) ->
  (INT_MIN <= grab <= INT_MAX ->
   exists w' v,
     hardkeys_grab_zoom_keys self [realized_widget mro gw; PyInt grab] w =
       Done (Some Py_None) w' /\
     zoom_key_property w' gw = Some (mkProperty XA_INTEGER 32 [v]) /\
     (v = 1 <-> grab <> 0) /\ (v = 0 <-> grab = 0))
  /\
  (~ (INT_MIN <= grab <= INT_MAX) ->
   exists w',
     hardkeys_grab_zoom_keys self [realized_widget mro gw; PyInt grab] w =
       Done None w' /\
     py_error w' = Some (OverflowError_arg 2) /\
     wire w' = wire w /\
     displays w' = displays w /\
     zoom_key_property w' gw = zoom_key_property w gw).
Proof.
  intros HT HS HD W HW. split.
  - intros HR.
    assert (HI : int_value (PyInt grab) = Some grab).
    { simpl. destruct (Z.leb_spec INT_MIN grab); [|lia].
      destruct (Z.leb_spec grab INT_MAX); [reflexivity|lia]. }
    destruct (intern_atom zoom_key_atom_name false s) as [a s1] eqn:HA.
    destruct (change_property (gdk_xid gw) a XA_INTEGER 32 PropModeReplace
                [if grab =? 0 then 0 else 1] 1 s1) as [rp s2] eqn:HC.
    exists (grab_post w gw a (if grab =? 0 then 0 else 1) rp s2),
           (if grab =? 0 then 0 else 1).
    split; [|split].
    + now apply (grab_zoom_keys_run self w t mro gw (PyInt grab) grab
                   s s1 s2 a rp).
    + now destruct (zoom_key_property_written w gw grab s s1 s2 a rp
                      W HW HA HC).
    + destruct (Z.eqb_spec grab 0); split; lia.
  - intros HR.
    assert (HI : int_value (PyInt grab) = None).
    { simpl. destruct (Z.leb_spec INT_MIN grab); [|reflexivity].
      destruct (Z.leb_spec grab INT_MAX); [lia|reflexivity]. }
    exists (set_py_error (Some (OverflowError_arg 2)) w).
    split; [|repeat split].
    unfold hardkeys_grab_zoom_keys, bind at 1, gets. rewrite HT.
    unfold bind at 1. now rewrite parse_two, HS, HI.
Qed.

Lemma any_int_is_a_flag_witness :
  (exists w' v,
     hardkeys_grab_zoom_keys Py_None [Sample.realized; PyInt (-7)]
       Sample.loaded = Done (Some Py_None) w' /\
     zoom_key_property w' Sample.gdk_window
       = Some (mkProperty XA_INTEGER 32 [v]) /\
     (v = 1 <-> -7 <> 0) /\ (v = 0 <-> -7 = 0))
  /\
  (exists w',
     hardkeys_grab_zoom_keys Py_None [Sample.realized; PyInt (-2147483649)]
       Sample.loaded = Done None w' /\
     py_error w' = Some (OverflowError_arg 2) /\
     wire w' = wire Sample.loaded /\
     displays w' = displays Sample.loaded /\
     zoom_key_property w' Sample.gdk_window
       = zoom_key_property Sample.loaded Sample.gdk_window).
Proof.
  split.
  - apply (any_int_is_a_flag Py_None Sample.loaded "gobject.GObject"
             Sample.Window_mro Sample.gdk_window Sample.server (-7)).
    + reflexivity.
    + reflexivity.
    + reflexivity.
    + reflexivity.
    + simpl. left. reflexivity.
    + unfold INT_MIN, INT_MAX. lia.
  - apply (any_int_is_a_flag Py_None Sample.loaded "gobject.GObject"
             Sample.Window_mro Sample.gdk_window Sample.server (-2147483649)).
    + reflexivity.
    + reflexivity.
    + reflexivity.
    + reflexivity.
    + simpl. left. reflexivity.
    + unfold INT_MIN, INT_MAX. lia.
Defined.

(** ** Determinism *)

Lemma written_data_app (l l' : list (XRequest * XReply)) :
  written_data (l ++ l') = written_data l ++ written_data l'.
Proof.
  induction l as [|[[| ] rp] l IH]; simpl; [reflexivity|exact IH|].
  now rewrite IH.
Qed.

(** C10.  The items a call writes depend on [grab] alone: two calls with the
    same [grab], on any two realized widgets, in any two states (whatever
    the properties hold and whatever calls came before), send a
    ChangeProperty request with the same items; and where both servers
    accept the write, the two properties read the same. *)
Theorem written_value_depends_on_grab_only (self1 self2 : PyObject)
    (w1 w2 : World) (t1 t2 : string) (mro1 mro2 : list string)
    (gw1 gw2 : GdkWindow) (s1 s2 : XServer) (grab : PyObject) :
  is_Some (int_value grab) ->
  PyGObject_Type w1 = Some (PyType t1) ->
  PyGObject_Type w2 = Some (PyType t2) ->
  PyType_IsSubtype (realized_widget mro1 gw1) t1 = true ->
  PyType_IsSubtype (realized_widget mro2 gw2) t2 = true ->
  displays w1 !! gdk_xdisplay gw1 = Some s1 ->
  displays w2 !! gdk_xdisplay gw2 = Some s2 ->
  exists w1' w2' data,
    hardkeys_grab_zoom_keys self1 [realized_widget mro1 gw1; grab] w1 =
      Done (Some Py_None) w1' /\
    hardkeys_grab_zoom_keys self2 [realized_widget mro2 gw2; grab] w2 =
      Done (Some Py_None) w2' /\
    written_data (wire w1') = written_data (wire w1) ++ [data] /\
    written_data (wire w2') = written_data (wire w2) ++ [data] /\
    (well_formed s1 -> In (gdk_xid gw1) (windows s1) ->
     well_formed s2 -> In (gdk_xid gw2) (windows s2) ->
     zoom_key_property w1' gw1 = Some (mkProperty XA_INTEGER 32 data) /\
     zoom_key_property w2' gw2 = Some (mkProperty XA_INTEGER 32 data)).
Proof.
  intros [n HI] HT1 HT2 HS1 HS2 HD1 HD2.
  destruct (intern_atom zoom_key_atom_name false s1) as [a1 s1'] eqn:HA1.
  destruct (intern_atom zoom_key_atom_name false s2) as [a2 s2'] eqn:HA2.
  set (v := if n =? 0 then 0 else 1).
  destruct (change_property (gdk_xid gw1) a1 XA_INTEGER 32 PropModeReplace
              [v] 1 s1') as [rp1 s1''] eqn:HC1.
  destruct (change_property (gdk_xid gw2) a2 XA_INTEGER 32 PropModeReplace
              [v] 1 s2') as [rp2 s2''] eqn:HC2.
  exists (grab_post w1 gw1 a1 v rp1 s1''), (grab_post w2 gw2 a2 v rp2 s2''), [v].
  split; [|split; [|split; [|split]]].
  - now apply (grab_zoom_keys_run self1 w1 t1 mro1 gw1 grab n s1 s1' s1'' a1 rp1).
  - now apply (grab_zoom_keys_run self2 w2 t2 mro2 gw2 grab n s2 s2' s2'' a2 rp2).
  - unfold grab_post. simpl. now rewrite written_data_app.
  - unfold grab_post. simpl. now rewrite written_data_app.
  - intros W1 I1 W2 I2. split.
    + now destruct (zoom_key_property_written w1 gw1 n s1 s1' s1'' a1 rp1
                      W1 I1 HA1 HC1).
    + now destruct (zoom_key_property_written w2 gw2 n s2 s2' s2'' a2 rp2
                      W2 I2 HA2 HC2).
Qed.

Lemma written_value_depends_on_grab_only_witness :
  exists w1' w2' data,
    hardkeys_grab_zoom_keys Py_None [Sample.realized; PyBool true]
      Sample.loaded = Done (Some Py_None) w1' /\
    hardkeys_grab_zoom_keys (PyInt 0) [Sample.stale; PyBool true]
      (Sample.after [Sample.realized; PyBool false]) = Done (Some Py_None) w2' /\
    written_data (wire w1') = written_data (wire Sample.loaded) ++ [data] /\
    written_data (wire w2') =
      written_data (wire (Sample.after [Sample.realized; PyBool false]))
        ++ [data] /\
    (well_formed Sample.server ->
     In (gdk_xid Sample.gdk_window) (windows Sample.server) ->
     well_formed Sample.bare_server ->
     In (gdk_xid Sample.stale_window) (windows Sample.bare_server) ->
     zoom_key_property w1' Sample.gdk_window
       = Some (mkProperty XA_INTEGER 32 data) /\
     zoom_key_property w2' Sample.stale_window
       = Some (mkProperty XA_INTEGER 32 data)).
Proof.
  apply (written_value_depends_on_grab_only Py_None (PyInt 0)
           Sample.loaded (Sample.after [Sample.realized; PyBool false])
           "gobject.GObject" "gobject.GObject"
           Sample.Window_mro Sample.Window_mro
           Sample.gdk_window Sample.stale_window
           Sample.server Sample.bare_server (PyBool true)).
  - exists 1. reflexivity.
  - reflexivity.
  - reflexivity.
  - reflexivity.
  - reflexivity.
  - reflexivity.
  - reflexivity.
Defined.

(** ** The scenario of the specification *)

(** A window with no such property: after [grab_zoom_keys(W, True)] the
    property reads 1, and after [grab_zoom_keys(W, False)] it reads 0. *)
Example scenario_true_then_false :
  zoom_key_property Sample.loaded Sample.gdk_window = None /\
  exists w1 w2,
    hardkeys_grab_zoom_keys Py_None [Sample.realized; PyBool true]
      Sample.loaded = Done (Some Py_None) w1 /\
    zoom_key_property w1 Sample.gdk_window
      = Some (mkProperty XA_INTEGER 32 [1]) /\
    hardkeys_grab_zoom_keys Py_None [Sample.realized; PyBool false] w1
      = Done (Some Py_None) w2 /\
    zoom_key_property w2 Sample.gdk_window
      = Some (mkProperty XA_INTEGER 32 [0]).
Proof.
  split; [reflexivity|].
  exists (Sample.after [Sample.realized; PyBool true]).
  exists (match hardkeys_grab_zoom_keys Py_None [Sample.realized; PyBool false]
                  (Sample.after [Sample.realized; PyBool true]) with
          | Done _ w => w
          | Undefined => Sample.loaded
          end).
  repeat split.
Qed.

(** The atom numbers of the sample server are those of <X11/Xatom.h>. *)
Example predefined_atom_numbers :
  lookup_atom "INTEGER" Sample.server = Some XA_INTEGER /\
  lookup_atom "WM_TRANSIENT_FOR" Sample.server = Some XA_LAST_PREDEFINED /\
  well_formed Sample.server.
Proof. repeat split. Qed.

(** * Beyond the stated properties *)

(** ** [inithardkeys] in every environment *)

(** The three ways [inithardkeys] ends, from any state: [Py_InitModule] has
    run in each; the static is assigned only on the last. *)
Lemma inithardkeys_cases (w : World) :
  let reg := set_py_modules
               (<["hardkeys" :=
                    {[ "grab_zoom_keys" :=
                         PyCFunction "hardkeys" "grab_zoom_keys" ]}]>
                  (py_modules w)) w in
  (exists name,
     (name = "gobject" \/ (name = "gtk" /\ is_Some (py_modules w !! "gobject")))
     /\ py_modules w !! name = None
     /\ inithardkeys w = Done tt (set_py_error (Some (ImportError name)) reg))
  \/
  (exists gobject,
     py_modules w !! "gobject" = Some gobject /\
     is_Some (py_modules w !! "gtk") /\
     gobject !! "GObject" = None /\
     inithardkeys w =
       Done tt (set_PyGObject_Type None
                  (set_py_error (Some (AttributeError "GObject")) reg)))
  \/
  (exists gobject v,
     py_modules w !! "gobject" = Some gobject /\
     is_Some (py_modules w !! "gtk") /\
     gobject !! "GObject" = Some v /\
     inithardkeys w = Done tt (set_PyGObject_Type (Some v) reg)).
Proof.
  intros reg.
  assert (R : reg = set_py_modules
                      (<["hardkeys" :=
                           {[ "grab_zoom_keys" :=
                                PyCFunction "hardkeys" "grab_zoom_keys" ]}]>
                         (py_modules w)) w) by reflexivity.
  unfold inithardkeys, Py_InitModule, init_pygobject, init_pygtk,
    PyImport_ImportModule, bind, modify, gets, ret. simpl.
  rewrite insert_empty. rewrite <- R.
  rewrite lookup_insert_ne by discriminate.
  destruct (py_modules w !! "gobject") as [gobject|] eqn:HG; simpl.
  2:{ left. exists "gobject". rewrite HG. auto. }
  rewrite lookup_insert_ne by discriminate.
  destruct (py_modules w !! "gtk") as [gtk|] eqn:HK; simpl.
  2:{ left. exists "gtk". rewrite HK. eauto 6. }
  rewrite lookup_insert_ne by discriminate. rewrite HG.
  unfold PyObject_GetAttrString, PyErr_Set, bind, modify, ret.
  destruct (gobject !! "GObject") as [v|] eqn:HA; simpl.
  - right. right. exists gobject, v. eauto.
  - right. left. exists gobject. eauto.
Qed.

(** X2.  [inithardkeys] always returns, and when it returns with no error
    pending both [gobject] and [gtk] were importable and the static holds
    the object that [gobject.GObject] names. *)
Theorem init_success_means_type_stored
    (mods : gmap string (gmap string PyObject))
    (conns : gmap Display XServer) :
  exists w0,
    inithardkeys (process_start mods conns) = Done tt w0 /\
    (py_error w0 = None ->
     exists gobject v,
       mods !! "gobject" = Some gobject /\ is_Some (mods !! "gtk") /\
       gobject !! "GObject" = Some v /\ PyGObject_Type w0 = Some v).
Proof.
  destruct (inithardkeys_cases (process_start mods conns))
    as [(name & _ & _ & ->)|[(gobject & _ & _ & _ & ->)
                            |(gobject & v & HG & HK & HA & ->)]];
    (eexists; split; [reflexivity|]); try discriminate.
  intros _. exists gobject, v. auto.
Qed.

(** X3.  When [inithardkeys] returns with an error pending, the error is
    the ImportError of [gobject] or of [gtk], or the AttributeError of
    [GObject], and the static is NULL; it stays NULL through any calls,
    and every two-argument call of [grab_zoom_keys] then has no defined
    behaviour, the parse reading the name of a NULL type. *)
Theorem failed_init_leaves_the_type_null
    (mods : gmap string (gmap string PyObject))
    (conns : gmap Display XServer) (w0 : World) (e : PyExc) :
  inithardkeys (process_start mods conns) = Done tt w0 ->
  py_error w0 = Some e ->
  (e = ImportError "gobject" /\ mods !! "gobject" = None \/
   e = ImportError "gtk" /\ mods !! "gtk" = None \/
   e = AttributeError "GObject") /\
  PyGObject_Type w0 = None /\
  forall calls w,
    run_calls calls w0 = Some w ->
    PyGObject_Type w = None /\
    forall self a g, hardkeys_grab_zoom_keys self [a; g] w = Undefined.
Proof.
  intros HI HE.
  assert (HN : PyGObject_Type w0 = None /\
               (e = ImportError "gobject" /\ mods !! "gobject" = None \/
                e = ImportError "gtk" /\ mods !! "gtk" = None \/
                e = AttributeError "GObject")).
  { destruct (inithardkeys_cases (process_start mods conns))
      as [(name & [->|[-> _]] & HM & E)|[(gobject & _ & _ & _ & E)
                                        |(gobject & v & _ & _ & _ & E)]];
      rewrite E in HI; injection HI as <-; simpl in HE;
      try injection HE as <-; try discriminate; auto. }
  destruct HN as [HN HC]. split; [exact HC|]. split; [exact HN|].
  intros calls w HR.
  pose proof (run_calls_keep_PyGObject_Type _ _ _ HR) as HT.
  rewrite HN in HT. split; [exact HT|]. intros self a g.
  unfold hardkeys_grab_zoom_keys, bind at 1, gets. rewrite HT. reflexivity.
Qed.

Lemma failed_init_leaves_the_type_null_witness :
  (ImportError "gtk" = ImportError "gobject" /\
     Broken.modules !! "gobject" = None \/
   ImportError "gtk" = ImportError "gtk" /\ Broken.modules !! "gtk" = None \/
   ImportError "gtk" = AttributeError "GObject") /\
  PyGObject_Type Broken.loaded = None /\
  forall calls w,
    run_calls calls Broken.loaded = Some w ->
    PyGObject_Type w = None /\
    forall self a g, hardkeys_grab_zoom_keys self [a; g] w = Undefined.
Proof.
  apply (failed_init_leaves_the_type_null Broken.modules
           {[ 0%N := Sample.server ]} Broken.loaded (ImportError "gtk")).
  - reflexivity.
  - reflexivity.
Defined.

(** ** The ways a call ends *)

(** X4.  The flag is checked before the widget is looked at: when the
    first argument is an instance of the stored type, be it a realized
    widget or not, and the second is an integer that does not fit a C int,
    a string or None, the call returns NULL with the error of argument 2
    set, the OverflowError for the integer and the TypeError for the string
    and for None; nothing but the error indicator changes. *)
Theorem refused_flag_raises_before_the_widget_is_used (self : PyObject)
    (w : World) (t : string) (a g : PyObject) :
  PyGObject_Type w = Some (PyType t) ->
  PyType_IsSubtype a t = true ->
  (exists n, g = PyInt n /\ ~ (INT_MIN <= n <= INT_MAX)) \/
  (exists s, g = PyString s) \/ g = Py_None ->
  exists e,
    hardkeys_grab_zoom_keys self [a; g] w =
      Done None (set_py_error (Some e) w) /\
    ((exists n, g = PyInt n) -> e = OverflowError_arg 2) /\
    ((forall n, g <> PyInt n) -> e = TypeError_arg_type 2).
Proof.
  intros HT HS HG.
  assert (HI : int_value g = None).
  { destruct HG as [(n & -> & HR)|[[s ->]| ->]]; try reflexivity.
    simpl. destruct (Z.leb_spec INT_MIN n); [|reflexivity].
    destruct (Z.leb_spec n INT_MAX); [lia|reflexivity]. }
  exists (int_error 2 g). split; [|split].
  - unfold hardkeys_grab_zoom_keys, bind at 1, gets. rewrite HT.
    unfold bind at 1. now rewrite parse_two, HS, HI.
  - intros [n ->]. reflexivity.
  - intros HN. destruct HG as [(n & -> & _)|[[s ->]| ->]]; try reflexivity.
    now destruct (HN n).
Qed.

Lemma refused_flag_raises_before_the_widget_is_used_witness :
  (exists e,
     hardkeys_grab_zoom_keys Py_None [Sample.list_store; PyString "yes"]
       Sample.loaded = Done None (set_py_error (Some e) Sample.loaded) /\
     ((exists n, PyString "yes" = PyInt n) -> e = OverflowError_arg 2) /\
     ((forall n, PyString "yes" <> PyInt n) -> e = TypeError_arg_type 2))
  /\
  (exists e,
     hardkeys_grab_zoom_keys Py_None
       [Sample.unrealized; PyInt (-2147483649)] Sample.loaded =
       Done None (set_py_error (Some e) Sample.loaded) /\
     ((exists n, PyInt (-2147483649) = PyInt n) -> e = OverflowError_arg 2) /\
     ((forall n, PyInt (-2147483649) <> PyInt n) -> e = TypeError_arg_type 2)).
Proof.
  split.
  - apply (refused_flag_raises_before_the_widget_is_used Py_None Sample.loaded
             "gobject.GObject" Sample.list_store (PyString "yes")).
    + reflexivity.
    + reflexivity.
    + right. left. exists "yes". reflexivity.
  - apply (refused_flag_raises_before_the_widget_is_used Py_None Sample.loaded
             "gobject.GObject" Sample.unrealized (PyInt (-2147483649))).
    + reflexivity.
    + reflexivity.
    + left. exists (-2147483649). split; [reflexivity|].
      unfold INT_MIN, INT_MAX. lia.
Defined.

(** X5.  A call that returns gives NULL exactly when it has set an error,
    and has then changed nothing but the error indicator; otherwise it
    gives [Py_None], never another object, and leaves the error indicator
    as it found it.  ([Py_None] is returned without [Py_INCREF]; the
    reference count is outside this statement.) *)
Theorem null_exactly_when_error_set (self : PyObject) (args : list PyObject)
    (w w' : World) (r : option PyObject) :
  hardkeys_grab_zoom_keys self args w = Done r w' ->
  (r = None /\ exists e, w' = set_py_error (Some e) w)
  \/ (r = Some Py_None /\ py_error w' = py_error w).
Proof.
  intros H.
  destruct (grab_zoom_keys_cases _ _ _ _ _ H)
    as [(-> & e & -> & _)
       |(-> & t & mro & gw & g & n & s & a & s1 & rp & s2
            & _ & _ & _ & _ & _ & _ & _ & ->)].
  - left. eauto.
  - right. split; reflexivity.
Qed.

Lemma null_exactly_when_error_set_witness :
  (@None PyObject = None /\
   exists e, Sample.after [PyInt 1; PyInt 1] = set_py_error (Some e) Sample.loaded)
  \/ (None = Some Py_None /\
      py_error (Sample.after [PyInt 1; PyInt 1]) = py_error Sample.loaded).
Proof.
  apply (null_exactly_when_error_set Py_None [PyInt 1; PyInt 1] Sample.loaded
           (Sample.after [PyInt 1; PyInt 1]) None).
  reflexivity.
Defined.

(** X6.  A call that returns NULL has sent nothing and left every server
    as it was; a call that returns None has sent exactly one
    ChangeProperty, after whatever interning of the name went before it:
    it is the last request of the call, for the widget's window on the
    window's connection, and carries the one item [grab?1:0]. *)
Theorem one_write_or_none (self : PyObject) (args : list PyObject)
    (w w' : World) (r : option PyObject) :
  hardkeys_grab_zoom_keys self args w = Done r w' ->
  (r = None /\ wire w' = wire w /\ displays w' = displays w)
  \/
  (r = Some Py_None /\
   exists mro gw g n before a rp,
     args = [realized_widget mro gw; g] /\ int_value g = Some n /\
     wire w' = wire w ++ before ++
       [ (ChangeProperty (gdk_xdisplay gw) (gdk_xid gw) a XA_INTEGER 32
            PropModeReplace [flag n] 1, rp) ] /\
     written_data before = [] /\
     written_data (wire w') = written_data (wire w) ++ [[flag n]]).
Proof.
  intros H.
  destruct (grab_zoom_keys_cases _ _ _ _ _ H)
    as [(-> & e & -> & _)
       |(-> & t & mro & gw & g & n & s & a & s1 & rp & s2
            & -> & _ & _ & HI & _ & _ & _ & ->)].
  - left. auto.
  - right. split; [reflexivity|].
    exists mro, gw, g, n,
      [ (InternAtom (gdk_xdisplay gw) zoom_key_atom_name false, ReplyAtom a);
        (InternAtom (gdk_xdisplay gw) zoom_key_atom_name false, ReplyAtom a) ],
      a, rp.
    split; [reflexivity|]. split; [exact HI|]. split; [reflexivity|].
    split; [reflexivity|].
    unfold grab_post. simpl. now rewrite written_data_app.
Qed.

Lemma one_write_or_none_witness :
  (Some Py_None = None /\
   wire (Sample.after [Sample.stale; PyInt 5]) = wire Sample.loaded /\
   displays (Sample.after [Sample.stale; PyInt 5]) = displays Sample.loaded)
  \/
  (Some Py_None = Some Py_None /\
   exists mro gw g n before a rp,
     [Sample.stale; PyInt 5] = [realized_widget mro gw; g] /\
     int_value g = Some n /\
     wire (Sample.after [Sample.stale; PyInt 5]) =
       wire Sample.loaded ++ before ++
       [ (ChangeProperty (gdk_xdisplay gw) (gdk_xid gw) a XA_INTEGER 32
            PropModeReplace [flag n] 1, rp) ] /\
     written_data before = [] /\
     written_data (wire (Sample.after [Sample.stale; PyInt 5])) =
       written_data (wire Sample.loaded) ++ [[flag n]]).
Proof.
  apply (one_write_or_none Py_None [Sample.stale; PyInt 5] Sample.loaded
           (Sample.after [Sample.stale; PyInt 5]) (Some Py_None)).
  reflexivity.
Defined.

(** X7.  With the type stored and both arguments accepted, the call has a
    defined behaviour exactly when the first argument wraps a realized
    widget whose connection is open: the code checks neither the GType of
    the wrapped object nor that [widget->window] is set. *)
Theorem defined_exactly_on_realized_widgets (self : PyObject) (w : World)
    (t : string) (a g : PyObject) :
  PyGObject_Type w = Some (PyType t) ->
  PyType_IsSubtype a t = true ->
  is_Some (int_value g) ->
  (hardkeys_grab_zoom_keys self [a; g] w <> Undefined <->
   exists mro gw,
     a = realized_widget mro gw /\ is_Some (displays w !! gdk_xdisplay gw)).
Proof.
  intros HT HS [n HI]. split.
  - intros HU.
    destruct (hardkeys_grab_zoom_keys self [a; g] w) as [r w'|] eqn:H;
      [|contradiction].
    destruct (grab_zoom_keys_cases _ _ _ _ _ H)
      as [(_ & e & _ & [[L _]|(t' & a' & g' & [= <- <-] & HT' & C)])
         |(_ & t' & mro & gw & g' & n' & s & a' & s1 & rp & s2
             & [= -> <-] & _ & _ & _ & HD & _)].
    + now simpl in L.
    + rewrite HT in HT'. injection HT' as <-.
      destruct C as [[C _]|(_ & C & _)]; congruence.
    + exists mro, gw. rewrite HD. eauto.
  - intros (mro & gw & -> & s & HD).
    destruct (intern_atom zoom_key_atom_name false s) as [a s1] eqn:HA.
    destruct (change_property (gdk_xid gw) a XA_INTEGER 32 PropModeReplace
                [if n =? 0 then 0 else 1] 1 s1) as [rp s2] eqn:HC.
    rewrite (grab_zoom_keys_run self w t mro gw g n s s1 s2 a rp
               HT HS HI HD HA HC).
    discriminate.
Qed.

Lemma defined_exactly_on_realized_widgets_witness :
  (hardkeys_grab_zoom_keys Py_None [Sample.unrealized; PyBool true]
     Sample.loaded <> Undefined <->
   exists mro gw,
     Sample.unrealized = realized_widget mro gw /\
     is_Some (displays Sample.loaded !! gdk_xdisplay gw)).
Proof.
  apply (defined_exactly_on_realized_widgets Py_None Sample.loaded
           "gobject.GObject" Sample.unrealized (PyBool true)).
  - reflexivity.
  - reflexivity.
  - exists 1. reflexivity.
Defined.

(** ** Calls one after the other *)

(** Once the name is interned, the three requests come down to the write. *)
Lemma served_interned (win : Window) (n : Z) (s : XServer) (a : Atom) :
  lookup_atom zoom_key_atom_name s = Some a ->
  served win (flag n) s =
    if existsb (N.eqb win) (windows s)
       && (valid_atom a s && valid_atom XA_INTEGER s)
    then set_property s win a (mkProperty XA_INTEGER 32 [flag n])
    else s.
Proof.
  intros HL. unfold served, intern_atom. rewrite HL.
  unfold flag. rewrite change_property_flag.
  destruct (existsb (N.eqb win) (windows s)); [|reflexivity].
  now destruct (valid_atom a s && valid_atom XA_INTEGER s).
Qed.

Lemma served_after_intern (win : Window) (v : Z) (s s1 : XServer) (a : Atom) :
  intern_atom zoom_key_atom_name false s = (a, s1) ->
  served win v s = served win v s1.
Proof.
  intros HA. unfold served. now rewrite HA, (intern_atom_again _ _ _ _ HA).
Qed.

(** The later write to a window replaces the earlier one. *)
Lemma served_twice (win : Window) (n1 n2 : Z) (s : XServer) :
  served win (flag n2) (served win (flag n1) s) = served win (flag n2) s.
Proof.
  destruct (intern_atom zoom_key_atom_name false s) as [a s1] eqn:HA.
  pose proof (intern_atom_lookup _ _ _ _ HA) as HL.
  rewrite !(served_after_intern win _ s s1 a HA).
  rewrite (served_interned win n1 s1 a HL), (served_interned win n2 s1 a HL).
  destruct (existsb (N.eqb win) (windows s1)
            && (valid_atom a s1 && valid_atom XA_INTEGER s1)) eqn:C.
  - rewrite (served_interned win n2 _ a) by exact HL.
    change (windows (set_property s1 win a _)) with (windows s1).
    change (valid_atom a (set_property s1 win a ?p)) with (valid_atom a s1).
    change (valid_atom XA_INTEGER (set_property s1 win a ?p))
      with (valid_atom XA_INTEGER s1).
    rewrite C. unfold set_property. simpl. now rewrite insert_insert_eq.
  - rewrite (served_interned win n2 s1 a HL). now rewrite C.
Qed.

(** Writes to two windows of one server can be swapped. *)
Lemma served_swap (win1 win2 : Window) (n1 n2 : Z) (s : XServer) :
  win1 <> win2 ->
  served win1 (flag n1) (served win2 (flag n2) s) =
  served win2 (flag n2) (served win1 (flag n1) s).
Proof.
  intros HW.
  destruct (intern_atom zoom_key_atom_name false s) as [a s1] eqn:HA.
  pose proof (intern_atom_lookup _ _ _ _ HA) as HL.
  rewrite !(served_after_intern _ _ s s1 a HA).
  rewrite (served_interned win1 n1 s1 a HL), (served_interned win2 n2 s1 a HL).
  destruct (existsb (N.eqb win1) (windows s1)
            && (valid_atom a s1 && valid_atom XA_INTEGER s1)) eqn:C1;
  destruct (existsb (N.eqb win2) (windows s1)
            && (valid_atom a s1 && valid_atom XA_INTEGER s1)) eqn:C2;
    repeat (rewrite (served_interned _ _ _ a) by exact HL);
    repeat (change (windows (set_property s1 ?w a ?p)) with (windows s1);
            change (valid_atom a (set_property s1 ?w a ?p))
              with (valid_atom a s1);
            change (valid_atom XA_INTEGER (set_property s1 ?w a ?p))
              with (valid_atom XA_INTEGER s1));
    rewrite ?C1, ?C2; try reflexivity.
  unfold set_property. simpl. f_equal.
  apply insert_insert_ne. congruence.
Qed.

(** The straight path, told by the server it leaves. *)
Lemma grab_zoom_keys_served (self : PyObject) (w : World) (t : string)
    (mro : list string) (gw : GdkWindow) (g : PyObject) (n : Z) (s : XServer) :
  PyGObject_Type w = Some (PyType t) ->
  existsb (String.eqb t) mro = true ->
  int_value g = Some n ->
  displays w !! gdk_xdisplay gw = Some s ->
  exists w',
    hardkeys_grab_zoom_keys self [realized_widget mro gw; g] w =
      Done (Some Py_None) w' /\
    PyGObject_Type w' = PyGObject_Type w /\
    displays w' =
      <[gdk_xdisplay gw := served (gdk_xid gw) (flag n) s]> (displays w).
Proof.
  intros HT HS HI HD.
  destruct (intern_atom zoom_key_atom_name false s) as [a s1] eqn:HA.
  destruct (change_property (gdk_xid gw) a XA_INTEGER 32 PropModeReplace
              [if n =? 0 then 0 else 1] 1 s1) as [rp s2] eqn:HC.
  eexists. split; [|split].
  - exact (grab_zoom_keys_run self w t mro gw g n s s1 s2 a rp
             HT HS HI HD HA HC).
  - reflexivity.
  - unfold grab_post, served, flag. simpl. now rewrite HA, HC.
Qed.

(** X8.  The last call wins: a call with [g1] followed by a call with [g2]
    on the same realized widget leaves every server, and so the property,
    as the call with [g2] alone leaves them, whatever [g1] was. *)
Theorem last_call_wins (self : PyObject) (w : World) (t : string)
    (mro : list string) (gw : GdkWindow) (s : XServer) (g1 g2 : PyObject) :
  PyGObject_Type w = Some (PyType t) ->
  PyType_IsSubtype (realized_widget mro gw) t = true ->
  displays w !! gdk_xdisplay gw = Some s ->
  is_Some (int_value g1) ->
  is_Some (int_value g2) ->
  exists w1 w12 w2,
    hardkeys_grab_zoom_keys self [realized_widget mro gw; g1] w =
      Done (Some Py_None) w1 /\
    hardkeys_grab_zoom_keys self [realized_widget mro gw; g2] w1 =
      Done (Some Py_None) w12 /\
    hardkeys_grab_zoom_keys self [realized_widget mro gw; g2] w =
      Done (Some Py_None) w2 /\
    displays w12 = displays w2 /\
    zoom_key_property w12 gw = zoom_key_property w2 gw.
Proof.
  intros HT HS HD [n1 H1] [n2 H2].
  destruct (grab_zoom_keys_served self w t mro gw g1 n1 s HT HS H1 HD)
    as (w1 & E1 & T1 & D1).
  assert (HD1 : displays w1 !! gdk_xdisplay gw
                = Some (served (gdk_xid gw) (flag n1) s))
    by (rewrite D1; apply lookup_insert_eq).
  rewrite <- T1 in HT.
  destruct (grab_zoom_keys_served self w1 t mro gw g2 n2 _ HT HS H2 HD1)
    as (w12 & E12 & _ & D12).
  rewrite T1 in HT.
  destruct (grab_zoom_keys_served self w t mro gw g2 n2 s HT HS H2 HD)
    as (w2 & E2 & _ & D2).
  exists w1, w12, w2.
  assert (D : displays w12 = displays w2).
  { rewrite D12, D1, D2, insert_insert_eq. now rewrite served_twice. }
  repeat split; auto.
  unfold zoom_key_property. now rewrite D.
Qed.

Lemma last_call_wins_witness :
  exists w1 w12 w2,
    hardkeys_grab_zoom_keys Py_None [Sample.realized; PyInt 42] Sample.loaded =
      Done (Some Py_None) w1 /\
    hardkeys_grab_zoom_keys Py_None [Sample.realized; PyBool false] w1 =
      Done (Some Py_None) w12 /\
    hardkeys_grab_zoom_keys Py_None [Sample.realized; PyBool false]
      Sample.loaded = Done (Some Py_None) w2 /\
    displays w12 = displays w2 /\
    zoom_key_property w12 Sample.gdk_window =
      zoom_key_property w2 Sample.gdk_window.
Proof.
  apply (last_call_wins Py_None Sample.loaded "gobject.GObject"
           Sample.Window_mro Sample.gdk_window Sample.server
           (PyInt 42) (PyBool false)).
  - reflexivity.
  - reflexivity.
  - reflexivity.
  - exists 42. reflexivity.
  - exists 0. reflexivity.
Defined.

(** X9.  Calls for two different windows, on one connection or on two, can
    be made in either order: both orders return None twice and leave the
    same servers. *)
Theorem calls_on_two_windows_commute (self : PyObject) (w : World)
    (t : string) (mro1 mro2 : list string) (gw1 gw2 : GdkWindow)
    (s1 s2 : XServer) (g1 g2 : PyObject) :
  PyGObject_Type w = Some (PyType t) ->
  PyType_IsSubtype (realized_widget mro1 gw1) t = true ->
  PyType_IsSubtype (realized_widget mro2 gw2) t = true ->
  displays w !! gdk_xdisplay gw1 = Some s1 ->
  displays w !! gdk_xdisplay gw2 = Some s2 ->
  is_Some (int_value g1) ->
  is_Some (int_value g2) ->
  gdk_xdisplay gw1 <> gdk_xdisplay gw2 \/ gdk_xid gw1 <> gdk_xid gw2 ->
  exists wa wab wb wba,
    hardkeys_grab_zoom_keys self [realized_widget mro1 gw1; g1] w =
      Done (Some Py_None) wa /\
    hardkeys_grab_zoom_keys self [realized_widget mro2 gw2; g2] wa =
      Done (Some Py_None) wab /\
    hardkeys_grab_zoom_keys self [realized_widget mro2 gw2; g2] w =
      Done (Some Py_None) wb /\
    hardkeys_grab_zoom_keys self [realized_widget mro1 gw1; g1] wb =
      Done (Some Py_None) wba /\
    displays wab = displays wba.
Proof.
  intros HT HS1 HS2 HD1 HD2 [n1 H1] [n2 H2] HNE.
  destruct (grab_zoom_keys_served self w t mro1 gw1 g1 n1 s1 HT HS1 H1 HD1)
    as (wa & Ea & Ta & Da).
  destruct (grab_zoom_keys_served self w t mro2 gw2 g2 n2 s2 HT HS2 H2 HD2)
    as (wb & Eb & Tb & Db).
  assert (HTa : PyGObject_Type wa = Some (PyType t)) by now rewrite Ta.
  assert (HTb : PyGObject_Type wb = Some (PyType t)) by now rewrite Tb.
  destruct (N.eq_dec (gdk_xdisplay gw1) (gdk_xdisplay gw2)) as [ED|ND].
  - assert (HX : gdk_xid gw1 <> gdk_xid gw2) by (destruct HNE; congruence).
    assert (s2 = s1) as -> by congruence.
    assert (HDa : displays wa !! gdk_xdisplay gw2
                  = Some (served (gdk_xid gw1) (flag n1) s1))
      by (rewrite Da, ED; apply lookup_insert_eq).
    assert (HDb : displays wb !! gdk_xdisplay gw1
                  = Some (served (gdk_xid gw2) (flag n2) s1))
      by (rewrite Db, ED; apply lookup_insert_eq).
    destruct (grab_zoom_keys_served self wa t mro2 gw2 g2 n2 _ HTa HS2 H2 HDa)
      as (wab & Eab & _ & Dab).
    destruct (grab_zoom_keys_served self wb t mro1 gw1 g1 n1 _ HTb HS1 H1 HDb)
      as (wba & Eba & _ & Dba).
    exists wa, wab, wb, wba. repeat split; auto.
    rewrite Dab, Da, Dba, Db, ED, !insert_insert_eq.
    f_equal. apply served_swap. congruence.
  - assert (HDa : displays wa !! gdk_xdisplay gw2 = Some s2)
      by (rewrite Da; now rewrite lookup_insert_ne).
    assert (HDb : displays wb !! gdk_xdisplay gw1 = Some s1)
      by (rewrite Db; rewrite lookup_insert_ne by congruence; exact HD1).
    destruct (grab_zoom_keys_served self wa t mro2 gw2 g2 n2 _ HTa HS2 H2 HDa)
      as (wab & Eab & _ & Dab).
    destruct (grab_zoom_keys_served self wb t mro1 gw1 g1 n1 _ HTb HS1 H1 HDb)
      as (wba & Eba & _ & Dba).
    exists wa, wab, wb, wba. repeat split; auto.
    rewrite Dab, Da, Dba, Db. apply insert_insert_ne. congruence.
Qed.

Lemma calls_on_two_windows_commute_witness :
  exists wa wab wb wba,
    hardkeys_grab_zoom_keys Py_None [Sample.realized; PyBool true]
      Sample.loaded = Done (Some Py_None) wa /\
    hardkeys_grab_zoom_keys Py_None [Sample.stale; PyBool false] wa =
      Done (Some Py_None) wab /\
    hardkeys_grab_zoom_keys Py_None [Sample.stale; PyBool false]
      Sample.loaded = Done (Some Py_None) wb /\
    hardkeys_grab_zoom_keys Py_None [Sample.realized; PyBool true] wb =
      Done (Some Py_None) wba /\
    displays wab = displays wba.
Proof.
  apply (calls_on_two_windows_commute Py_None Sample.loaded "gobject.GObject"
           Sample.Window_mro Sample.Window_mro
           Sample.gdk_window Sample.stale_window
           Sample.server Sample.bare_server (PyBool true) (PyBool false)).
  - reflexivity.
  - reflexivity.
  - reflexivity.
  - reflexivity.
  - reflexivity.
  - exists 1. reflexivity.
  - exists 0. reflexivity.
  - left. simpl. discriminate.
Defined.

(** ** What no sequence of calls does *)

Lemma grows_refl (s : XServer) : grows s s.
Proof. unfold grows. auto. Qed.

(** A name that has its atom keeps it as the server grows. *)
Lemma grows_keeps_atom (s s' : XServer) (b : Atom) :
  grows s s' ->
  lookup_atom zoom_key_atom_name s = Some b ->
  lookup_atom zoom_key_atom_name s' = Some b.
Proof.
  intros (_ & [E|[HN _]] & _) HL; [|congruence].
  unfold lookup_atom in *. now rewrite E.
Qed.

Lemma grows_trans (s s' s'' : XServer) :
  grows s s' -> grows s' s'' -> grows s s''.
Proof.
  intros G1 G2.
  pose proof (fun b => grows_keeps_atom _ _ b G2) as HK.
  destruct G1 as (W1 & A1 & P1 & K1), G2 as (W2 & A2 & P2 & K2).
  split; [congruence|]. split; [|split].
  - destruct A2 as [E2|[HN2 E2]].
    + rewrite E2. exact A1.
    + destruct A1 as [E1|[HN1 E1]].
      * right. unfold lookup_atom in *. rewrite E1 in HN2, E2. auto.
      * exfalso. unfold lookup_atom in HN1, HN2. rewrite E1 in HN2.
        destruct (name_index zoom_key_atom_name (atom_names s)) eqn:E;
          [discriminate|].
        now rewrite (name_index_fresh _ _ E) in HN2.
  - intros win b HB. rewrite (P2 win b HB). apply P1.
    intros HB'. apply HB. now apply HK.
  - intros k H. apply K2, K1, H.
Qed.

(** One call's requests make the server grow. *)
Lemma served_grows (win : Window) (n : Z) (s : XServer) :
  grows s (served win (flag n) s).
Proof.
  destruct (intern_atom zoom_key_atom_name false s) as [a s1] eqn:HA.
  pose proof (intern_atom_lookup _ _ _ _ HA) as HL.
  destruct (intern_atom_frame _ _ _ _ HA) as (EW & EP & EA).
  rewrite (served_after_intern win _ s s1 a HA), (served_interned win n s1 a HL).
  assert (EA' : atom_names s1 = atom_names s \/
                (lookup_atom zoom_key_atom_name s = None /\
                 atom_names s1 = atom_names s ++ [zoom_key_atom_name])).
  { destruct EA as [[_ ->]|[? ?]]; auto. }
  destruct (existsb (N.eqb win) (windows s1)
            && (valid_atom a s1 && valid_atom XA_INTEGER s1)).
  - split; [exact EW|]. split; [exact EA'|]. split.
    + intros win' b HB. simpl. rewrite <- EP.
      apply lookup_insert_ne. intros [= _ <-]. now apply HB.
    + intros k HK. simpl. rewrite <- EP in HK.
      destruct (decide ((win, a) = k)) as [<-|NE].
      * rewrite lookup_insert_eq. eauto.
      * now rewrite lookup_insert_ne.
  - split; [exact EW|]. split; [exact EA'|]. split.
    + intros win' b _. now rewrite EP.
    + intros k HK. now rewrite EP.
Qed.

Lemma world_grows_refl (w : World) : world_grows w w.
Proof.
  split; [reflexivity|]. split; [reflexivity|].
  split; [exists []; now rewrite app_nil_r|].
  intros d. destruct (displays w !! d); [apply grows_refl|exact I].
Qed.

Lemma world_grows_trans (w w' w'' : World) :
  world_grows w w' -> world_grows w' w'' -> world_grows w w''.
Proof.
  intros (T1 & M1 & [n1 L1] & D1) (T2 & M2 & [n2 L2] & D2).
  split; [congruence|]. split; [congruence|]. split.
  - exists (n1 ++ n2). now rewrite L2, L1, app_assoc.
  - intros d. specialize (D1 d). specialize (D2 d).
    destruct (displays w !! d), (displays w' !! d), (displays w'' !! d);
      try contradiction; try exact I.
    eapply grows_trans; eassumption.
Qed.

(** One call, however it ends. *)
Lemma call_world_grows (self : PyObject) (args : list PyObject) (w w' : World)
    (r : option PyObject) :
  hardkeys_grab_zoom_keys self args w = Done r w' -> world_grows w w'.
Proof.
  intros H.
  destruct (grab_zoom_keys_cases _ _ _ _ _ H)
    as [(_ & e & -> & _)
       |(_ & t & mro & gw & g & n & s & a & s1 & rp & s2
           & _ & _ & _ & _ & HD & HA & HC & ->)].
  - split; [reflexivity|]. split; [reflexivity|].
    split; [exists []; simpl; now rewrite app_nil_r|].
    intros d. simpl. destruct (displays w !! d); [apply grows_refl|exact I].
  - split; [reflexivity|]. split; [reflexivity|].
    split; [eexists; reflexivity|].
    intros d. unfold grab_post. simpl.
    destruct (decide (gdk_xdisplay gw = d)) as [<-|ND].
    + rewrite HD, lookup_insert_eq.
      replace s2 with (served (gdk_xid gw) (flag n) s);
        [apply served_grows|].
      unfold served, flag. now rewrite HA, HC.
    + rewrite lookup_insert_ne by exact ND.
      destruct (displays w !! d); [apply grows_refl|exact I].
Qed.

(** X10.  What no sequence of calls does: through any calls of
    [grab_zoom_keys], with any arguments, that all return, the stored type
    and the interpreter's modules are kept, the log is only extended, no
    connection is opened or closed, and on every server the windows are the
    same, the atom table is the same or longer by the one name
    [_HILDON_ZOOM_KEY_ATOM], no property is deleted, and every property
    under another atom than that of this name reads as before. *)
Theorem calls_only_grow_the_servers (calls : list (list PyObject)) :
  forall w w', run_calls calls w = Some w' -> world_grows w w'.
Proof.
  induction calls as [|args calls IH]; simpl; intros w w' H.
  - injection H as <-. apply world_grows_refl.
  - destruct (hardkeys_grab_zoom_keys Py_None args w) as [r w1|] eqn:E;
      [|discriminate].
    eapply world_grows_trans; [exact (call_world_grows _ _ _ _ _ E)|].
    now apply IH.
Qed.

Lemma calls_only_grow_the_servers_witness :
  world_grows Sample.loaded Session.finish.
Proof.
  apply (calls_only_grow_the_servers Session.calls Sample.loaded Session.finish).
  reflexivity.
Defined.
